(** * Landmark alignment and mesh warping (openbr/plugins/landmarks.cpp)

    A shallow embedding of the three transforms of [landmarks.cpp]:
    [ProcrustesTransform] (training of the mean shape and alignment of a
    record), [DelaunayTransform] (triangulation of the landmarks and the
    piecewise-affine warp) and the data they exchange through the record's
    metadata.

    Numbers.  The source mixes [double] ([qreal], [cv::Scalar]) and [float]
    ([Point2f], [Eigen::MatrixXf], [QList<float>]).  The embedding is generic
    in a type [F] of scalars with the operations the code uses; [to_float]
    marks every place where the code narrows a [double] to a [float].  Two
    instances are given: IEEE binary64 with binary32 narrowing (for running the
    code on concrete records) and the real numbers (exact arithmetic, the
    reading under which the numerical properties are stated).

    Libraries.  Qt containers are lists, [QVariantMap] is a finite map.  The
    OpenCV and Eigen routines the code calls without defining them
    ([cv::Subdiv2D], [cv::warpAffine], [cv::fillConvexPoly],
    [cv::boundingRect], [Eigen::JacobiSVD]) are fields of two interfaces,
    [OpenCVLib] and [EigenLib]; every statement quantifies over them. *)

From stdpp Require Import gmap strings list.
From Stdlib Require Import ZArith Reals Lra.
From Stdlib Require Floats Uint63.

Set Default Proof Using "Type".

(** ** Scalars *)

Class Scalar (F : Type) := {
  f0 : F;
  fadd : F -> F -> F;
  fsub : F -> F -> F;
  fmul : F -> F -> F;
  fdiv : F -> F -> F;
  fsqrt : F -> F;
  (** [int] to [double] *)
  of_Z : Z -> F;
  (** [a < b] and [a <= b] *)
  fltb : F -> F -> bool;
  fleb : F -> F -> bool;
  (** [double] to [float] *)
  to_float : F -> F
}.

(** Rounding of a binary64 number to the nearest binary32 number, kept in a
    binary64 (every binary32 number is one). *)
Definition binary32_round (d : PrimFloat.float) : PrimFloat.float :=
  match FloatOps.Prim2SF d with
  | SpecFloat.S754_finite s m e =>
      FloatOps.SF2Prim (SpecFloat.binary_normalize 24 128 (if s then Z.neg m else Z.pos m) e s)
  | _ => d
  end.

Definition binary64_of_Z (z : Z) : PrimFloat.float :=
  match z with
  | Z0 => PrimFloat.zero
  | Z.pos _ => FloatOps.SF2Prim (SpecFloat.binary_normalize 53 1024 z 0 false)
  | Z.neg _ => FloatOps.SF2Prim (SpecFloat.binary_normalize 53 1024 z 0 true)
  end.

#[export] Instance float_Scalar : Scalar PrimFloat.float := {|
  f0 := PrimFloat.zero;
  fadd := PrimFloat.add;
  fsub := PrimFloat.sub;
  fmul := PrimFloat.mul;
  fdiv := PrimFloat.div;
  fsqrt := PrimFloat.sqrt;
  of_Z := binary64_of_Z;
  fltb := PrimFloat.ltb;
  fleb := PrimFloat.leb;
  to_float := binary32_round
|}.

#[export] Instance R_Scalar : Scalar R := {|
  f0 := 0%R;
  fadd := Rplus;
  fsub := Rminus;
  fmul := Rmult;
  fdiv := Rdiv;
  fsqrt := R_sqrt.sqrt;
  of_Z := IZR;
  fltb := fun a b => if Rlt_dec a b then true else false;
  fleb := fun a b => if Rle_dec a b then true else false;
  to_float := fun a => a
|}.

(** ** Outcomes

    [qWarning] logs a line and goes on, [qFatal] aborts the process.  Indexing
    a [QList] past its end ([operator[]], [at]) is an assertion failure in a
    debug build of Qt and undefined otherwise: the embedding stops there. *)

Inductive Outcome (A : Type) : Type :=
| Done (a : A) (warnings : list string)
| Fatal (msg : string)
| IndexOutOfRange.
Arguments Done {A} a warnings.
Arguments Fatal {A} msg.
Arguments IndexOutOfRange {A}.

(** ** Points, rectangles, images, records *)

(** [QPointF] (coordinates [qreal]) and [cv::Point2f] (coordinates [float]). *)
Record Point (F : Type) : Type := Pt { pt_x : F; pt_y : F }.
Arguments Pt {F} pt_x pt_y.
Arguments pt_x {F} p.
Arguments pt_y {F} p.

Record QRectF (F : Type) : Type := Rect { rect_x : F; rect_y : F; rect_w : F; rect_h : F }.
Arguments Rect {F} rect_x rect_y rect_w rect_h.
Arguments rect_x {F} q.
Arguments rect_y {F} q.
Arguments rect_w {F} q.
Arguments rect_h {F} q.

(** [cv::Mat], 8-bit single channel ([CV_8UC1]), row-major: the only pixel
    type [bitwise_and] accepts against the [CV_8UC1] mask of the warp. *)
Record Mat : Type := mkMat { mat_rows : Z; mat_cols : Z; mat_data : list Z }.

(** The values a record's metadata holds under a key. *)
Inductive Value (F : Type) : Type :=
| VFloats (l : list F)
| VPoints (l : list (Point F)).
Arguments VFloats {F} l.
Arguments VPoints {F} l.

(** Modelled from the spec: [br::File] and [br::Template] are declared in
    openbr.h, which is not part of the sources at hand.  Per record: an
    ordered list of landmark points, a list of rectangular regions (the last
    one is the bounding region), a key/value store, and an image. *)
Record File (F : Type) : Type := mkFile {
  file_points : list (Point F);
  file_rects : list (QRectF F);
  file_metadata : gmap string (Value F)
}.
Arguments mkFile {F} file_points file_rects file_metadata.
Arguments file_points {F} f.
Arguments file_rects {F} f.
Arguments file_metadata {F} f.

Record Template (F : Type) : Type := mkTemplate { file : File F; m : Mat }.
Arguments mkTemplate {F} file m.
Arguments file {F} t.
Arguments m {F} t.

Section Records.
Context {F : Type} {num : Scalar F}.

(** [QRectF::topLeft] and friends. *)
Definition topLeft (r : QRectF F) : Point F := Pt (rect_x r) (rect_y r).
Definition topRight (r : QRectF F) : Point F :=
  Pt (fadd (rect_x r) (rect_w r)) (rect_y r).
Definition bottomLeft (r : QRectF F) : Point F :=
  Pt (rect_x r) (fadd (rect_y r) (rect_h r)).
Definition bottomRight (r : QRectF F) : Point F :=
  Pt (fadd (rect_x r) (rect_w r)) (fadd (rect_y r) (rect_h r)).

(** The four [points.append(rects.last()...)] of [train] and of both
    [project]s; they run only after [rects.empty()] was found false. *)
Definition appendCorners (points : list (Point F)) (rects : list (QRectF F))
  : list (Point F) :=
  match last rects with
  | Some r => points ++ [topLeft r; topRight r; bottomLeft r; bottomRight r]
  | None => points
  end.

(** Modelled from the spec: [OpenCVUtils::toPoint] and [toPoints]
    (openbr/core/opencvutils) turn a [QPointF] into a [cv::Point2f]. *)
Definition toPoint (p : Point F) : Point F :=
  Pt (to_float (pt_x p)) (to_float (pt_y p)).
Definition toPoints (ps : list (Point F)) : list (Point F) := map toPoint ps.

(** Modelled from the spec: [File::setList], [File::appendPoint] and
    [File::setRects] (openbr.h) store a list under a key, add one point
    after the points the record has, and replace the rects. *)
Definition setList (key : string) (v : Value F) (f : File F) : File F :=
  mkFile (file_points f) (file_rects f) (<[key := v]> (file_metadata f)).
Definition appendPoint (p : Point F) (f : File F) : File F :=
  mkFile (file_points f ++ [p]) (file_rects f) (file_metadata f).
Definition setRects (rs : list (QRectF F)) (f : File F) : File F :=
  mkFile (file_points f) rs (file_metadata f).

(** Modelled from the spec: [File::getList<float>]; a key that is absent
    (or holds points) reads as the empty list. *)
Definition getFloats (key : string) (f : File F) : list F :=
  match file_metadata f !! key with
  | Some (VFloats l) => l
  | _ => []
  end.

(** [cv::mean] of a vector of points: the mean of each coordinate,
    accumulated in [double]; zero for an empty vector. *)
Definition sumPoints (ps : list (Point F)) : F * F :=
  fold_left (fun acc p => (fadd (fst acc) (pt_x p), fadd (snd acc) (pt_y p)))
            ps (f0, f0).
Definition cv_mean (ps : list (Point F)) : F * F :=
  match ps with
  | [] => (f0, f0)
  | _ =>
      let n := of_Z (Z.of_nat (length ps)) in
      (fdiv (fst (sumPoints ps)) n, fdiv (snd (sumPoints ps)) n)
  end.

(** [cv::norm] of a vector of points ([NORM_L2]): the square root of the
    sum of the squares of all coordinates. *)
Definition sumSquares (ps : list (Point F)) : F :=
  fold_left (fun acc p =>
               fadd (fadd acc (fmul (pt_x p) (pt_x p))) (fmul (pt_y p) (pt_y p)))
            ps f0.
Definition cv_norm (ps : list (Point F)) : F := fsqrt (sumSquares ps).

(** [points[i] -= QPointF(mean[0],mean[1])] and [points[i] /= norm]. *)
Definition centerAt (mean : F * F) (ps : list (Point F)) : list (Point F) :=
  map (fun p => Pt (fsub (pt_x p) (fst mean)) (fsub (pt_y p) (snd mean))) ps.
Definition divideBy (norm : F) (ps : list (Point F)) : list (Point F) :=
  map (fun p => Pt (fdiv (pt_x p) norm) (fdiv (pt_y p) norm)) ps.

(** Lines 46-52 of [train] and 96-102 of [project]: the centroid, the norm
    of the centred points ([float norm]) and the normalized points. *)
Definition shapeMean (ps : list (Point F)) : F * F := cv_mean (toPoints ps).
Definition shapeNorm (ps : list (Point F)) : F :=
  to_float (cv_norm (toPoints (centerAt (shapeMean ps) ps))).
Definition normalizeShape (ps : list (Point F)) : list (Point F) :=
  divideBy (shapeNorm ps) (centerAt (shapeMean ps) ps).

(** An entry [a*b + c*d] of a product with a 2x2 matrix, in [float]
    arithmetic. *)
Definition dot2 (a b c d : F) : F :=
  to_float (fadd (to_float (fmul a b)) (to_float (fmul c d))).
End Records.

Definition isEmpty {A : Type} (l : list A) : bool :=
  match l with [] => true | _ => false end.

(** ** Eigen *)

(** A 2x2 [Eigen::MatrixXf]; an N x 2 one is the list of its rows. *)
Record Matrix2 (F : Type) : Type :=
  mkMatrix2 { m00 : F; m01 : F; m10 : F; m11 : F }.
Arguments mkMatrix2 {F} m00 m01 m10 m11.
Arguments m00 {F} m.
Arguments m01 {F} m.
Arguments m10 {F} m.
Arguments m11 {F} m.

(** Lines 107-108 of [ProcrustesTransform::project]: from [srcMat] and
    [meanShape], Eigen forms [srcMat.transpose()*meanShape], takes its
    [JacobiSVD] and returns [matrixU()*matrixV().transpose()]. *)
Class EigenLib (F : Type) := {
  procrustesRotation : list (F * F) -> list (F * F) -> Matrix2 F
}.

(** ** ProcrustesTransform *)

Module ProcrustesTransform.
Section ProcrustesTransform.
Context {F : Type} {num : Scalar F} {eigen : EigenLib F}.

(** The loop of [train] (lines 34-55): a record without points or without
    rects is skipped, the others contribute their normalized points. *)
Fixpoint normalizedPoints (data : list (Template F)) : list (list (Point F)) :=
  match data with
  | [] => []
  | datum :: rest =>
      let points := file_points (file datum) in
      let rects := file_rects (file datum) in
      if isEmpty points || isEmpty rects then normalizedPoints rest
      else normalizeShape (appendCorners points rects) :: normalizedPoints rest
  end.

(** Lines 63-69: [x += normalizedPoints[j][i].x()] over all [j]. *)
Definition columnSum (shapes : list (list (Point F))) (i : nat) : option (F * F) :=
  fold_left (fun acc shape =>
               match acc, shape !! i with
               | Some (x, y), Some p => Some (fadd x (pt_x p), fadd y (pt_y p))
               | _, _ => None
               end)
            shapes (Some (f0, f0)).

(** Lines 71-75: the row [i] of [meanShape]. *)
Definition meanRow (shapes : list (list (Point F))) (i : nat) : option (F * F) :=
  match columnSum shapes i with
  | Some (x, y) =>
      let n := of_Z (Z.of_nat (length shapes)) in
      Some (to_float (fdiv x n), to_float (fdiv y n))
  | None => None
  end.

(** [train]: the value left in [meanShape]. *)
Definition train (data : list (Template F)) : Outcome (list (F * F)) :=
  match normalizedPoints data with
  | [] => Fatal "Unable to calculate normalized points"
  | first :: others =>
      match mapM (meanRow (first :: others)) (seq 0 (length first)) with
      | Some meanShape => Done meanShape []
      | None => IndexOutOfRange
      end
  end.

(** Lines 99-105: [srcMat], the normalized points narrowed to [float]. *)
Definition srcMat (points : list (Point F)) : list (F * F) :=
  map (fun p => (to_float (pt_x p), to_float (pt_y p))) (normalizeShape points).

(** Lines 119-121: the rows of [dstMat = srcMat*R], as points. *)
Definition dstMat (R : Matrix2 F) (srcMat : list (F * F)) : list (Point F) :=
  map (fun row => Pt (dot2 (fst row) (m00 R) (snd row) (m10 R))
                     (dot2 (fst row) (m01 R) (snd row) (m11 R)))
      srcMat.

(** Lines 112-115. *)
Definition procrustesStats (R : Matrix2 F) (mean : F * F) (norm : F) : list F :=
  [m00 R; m10 R; m11 R; m01 R; to_float (fst mean); to_float (snd mean); norm].

(** [project]: the value left in [dst]. *)
Definition project (warp : bool) (meanShape : list (F * F)) (src : Template F)
  : Outcome (Template F) :=
  let points := file_points (file src) in
  let rects := file_rects (file src) in
  if isEmpty points || isEmpty rects then
    Done src ["Procrustes alignment failed because points or rects are empty."]
  else
    let points := appendCorners points rects in
    let mean := shapeMean points in
    let norm := shapeNorm points in
    let R := procrustesRotation (srcMat points) meanShape in
    let dst := src in
    let dst :=
      mkTemplate (setList "ProcrustesStats"
                          (VFloats (procrustesStats R mean norm)) (file dst))
                 (m dst) in
    if warp then
      Done (mkTemplate
              (fold_left (fun f p => appendPoint p f)
                         (dstMat R (srcMat points)) (file dst))
              (m dst)) []
    else Done dst [].
End ProcrustesTransform.
End ProcrustesTransform.

(** ** OpenCV *)

(** [cv::Vec6f]: the three vertices of a triangle. *)
Definition Vec6f (F : Type) : Type := (Point F * Point F * Point F)%type.

Class OpenCVLib (F : Type) := {
(** [cv::Subdiv2D]: [Subdiv2D(Rect(0,0,cols,rows))], [insert],
    [getTriangleList]. *)
Subdiv2D : Type;
subdiv_new : Z -> Z -> Subdiv2D;
subdiv_insert : Subdiv2D -> Point F -> Subdiv2D;
getTriangleList : Subdiv2D -> list (Vec6f F);
(** [warpAffine(src, buffer, getAffineTransform(srcPoints, dstPoints),
    Size(cols,rows))]: the pixel of [buffer] at a row-major index. *)
warpAffine : Mat -> Vec6f F -> Vec6f F -> Z -> Z -> nat -> Z;
(** [fillConvexPoly(mask, dstPoints, 3, ...)] on a [rows] x [cols] mask:
    whether the pixel at a row-major index is painted. *)
fillConvexPoly : Vec6f F -> Z -> Z -> nat -> bool;
(** [OpenCVUtils::fromRect(boundingRect(mappedPoints))]. *)
boundingRect : list (Point F) -> QRectF F
}.

(** A [rows] x [cols] image given by its pixels. *)
Definition matOf (rows cols : Z) (pixel : nat -> Z) : Mat :=
mkMat rows cols (map pixel (seq 0 (Z.to_nat (rows * cols)))).

(** [Mat::zeros(rows, cols, CV_8UC1)]. *)
Definition zeros (rows cols : Z) : Mat := matOf rows cols (fun _ => 0%Z).

Definition pointwise (f : Z -> Z -> Z) (a b : Mat) : Mat :=
mkMat (mat_rows a) (mat_cols a) (zip_with f (mat_data a) (mat_data b)).

(** [bitwise_and(a, b, out)]. *)
Definition bitwise_and : Mat -> Mat -> Mat := pointwise Z.land.

(** [a != 0]: 255 where the pixel differs from zero, 0 elsewhere. *)
Definition nonZero (a : Mat) : Mat :=
mkMat (mat_rows a) (mat_cols a)
      (map (fun v => if (v =? 0)%Z then 0%Z else 255%Z) (mat_data a)).

(** [mask.setTo(0, selector)]. *)
Definition setToZero : Mat -> Mat -> Mat :=
pointwise (fun v s => if (s =? 0)%Z then v else 0%Z).

(** [a += b] on 8-bit pixels ([saturate_cast<uchar>]). *)
Definition saturate_uchar (v : Z) : Z := Z.max 0 (Z.min 255 v).
Definition addTo : Mat -> Mat -> Mat :=
pointwise (fun u v => saturate_uchar (u + v)).

(** ** DelaunayTransform *)

Module DelaunayTransform.
Section DelaunayTransform.
Context {F : Type} {num : Scalar F} {opencv : OpenCVLib F}.

(** Line 178, the test made on every point before it is inserted. *)
Definition outOfBounds (cols rows : Z) (p : Point F) : bool :=
  fltb (pt_x p) f0 || fltb (pt_y p) f0
  || fleb (of_Z rows) (pt_y p) || fleb (of_Z cols) (pt_x p).

(** Lines 177-184: [None] when the loop returns early. *)
Fixpoint insertPoints (cols rows : Z) (points : list (Point F)) (subdiv : Subdiv2D)
  : option Subdiv2D :=
  match points with
  | [] => Some subdiv
  | p :: rest =>
      if outOfBounds cols rows p then None
      else insertPoints cols rows rest (subdiv_insert subdiv (toPoint p))
  end.

(** Line 199, the test that makes a triangle invalid. *)
Definition outsideMatrix (cols rows : Z) (v : Point F) : bool :=
  fltb (of_Z cols) (pt_x v) || fltb (of_Z rows) (pt_y v)
  || fltb (pt_x v) f0 || fltb (pt_y v) f0.

(** Lines 189-202: the flat list [validTriangles]. *)
Fixpoint validTriangles (cols rows : Z) (triangleList : list (Vec6f F))
  : list (Point F) :=
  match triangleList with
  | [] => []
  | (a, b, c) :: rest =>
      if outsideMatrix cols rows a || outsideMatrix cols rows b
         || outsideMatrix cols rows c
      then validTriangles cols rows rest
      else [a; b; c] ++ validTriangles cols rows rest
  end.

(** Lines 228-232 and 240: a vertex brought to the aligned frame, scaled
    and moved to the centre of the image. *)
Definition warpedPoint (R : Matrix2 F) (mean0 mean1 norm scaleFactor : F)
           (cols rows : Z) (v : Point F) : Point F :=
  let s0 := to_float (fdiv (fsub (pt_x v) mean0) norm) in
  let s1 := to_float (fdiv (fsub (pt_y v) mean1) norm) in
  let d0 := dot2 s0 (m00 R) s1 (m10 R) in
  let d1 := dot2 s0 (m01 R) s1 (m11 R) in
  Pt (to_float (fadd (to_float (fmul d0 scaleFactor)) (to_float (of_Z (Z.quot cols 2)))))
     (to_float (fadd (to_float (fmul d1 scaleFactor)) (to_float (of_Z (Z.quot rows 2))))).

(** Lines 245-256: the resampled image and the mask of a triangle. *)
Definition triangleBuffer (image : Mat) (cols rows : Z) (srcPoints dstPoints : Vec6f F)
  : Mat :=
  matOf rows cols (warpAffine image srcPoints dstPoints cols rows).
Definition triangleMask (cols rows : Z) (dstPoints : Vec6f F) : Mat :=
  matOf rows cols (fun i => if fillConvexPoly dstPoints rows cols i then 255%Z else 0%Z).

(** Lines 258-268: one triangle composited into the accumulated image;
    [first] is [i = 0]. *)
Definition composite (first : bool) (acc buffer mask : Mat) : Mat :=
  let mask :=
    if first then mask
    else let overlap := bitwise_and acc mask in setToZero mask (nonZero overlap) in
  let output := bitwise_and buffer mask in
  addTo acc output.

(** Lines 223-269: the loop over [validTriangles], three points at a time;
    the state is [dst.m()] and [mappedPoints].  [None] when [i+j] runs
    past the end of the list. *)
Fixpoint warpTriangles (image : Mat) (R : Matrix2 F) (mean0 mean1 norm scaleFactor : F)
         (cols rows : Z) (first : bool) (triangles : list (Point F))
         (acc : Mat) (mappedPoints : list (Point F))
  : option (Mat * list (Point F)) :=
  match triangles with
  | [] => Some (acc, mappedPoints)
  | a :: b :: c :: rest =>
      let w := warpedPoint R mean0 mean1 norm scaleFactor cols rows in
      let srcPoints := (toPoint a, toPoint b, toPoint c) in
      let dstPoints := (w a, w b, w c) in
      let buffer := triangleBuffer image cols rows srcPoints dstPoints in
      let mask := triangleMask cols rows dstPoints in
      warpTriangles image R mean0 mean1 norm scaleFactor cols rows false rest
                    (composite first acc buffer mask)
                    (mappedPoints ++ [w a; w b; w c])
  | _ => None
  end.

(** Line 276. *)
Definition storeTriangles (triangles : list (Point F)) (dst : Template F) : Template F :=
  mkTemplate (setList "DelaunayTriangles" (VPoints triangles) (file dst)) (m dst).

(** [project]: the value left in [dst], which the caller passes in. *)
Definition project (scaleFactor : F) (warp : bool) (src dst : Template F)
  : Outcome (Template F) :=
  let points := file_points (file src) in
  let rects := file_rects (file src) in
  if isEmpty points || isEmpty rects then
    Done src ["Delauney triangulation failed because points or rects are empty."]
  else
    let cols := mat_cols (m src) in
    let rows := mat_rows (m src) in
    let points := appendCorners points rects in
    match insertPoints cols rows points (subdiv_new cols rows) with
    | None =>
        Done src ["Delauney triangulation failed because points lie on boundary."]
    | Some subdiv =>
        let triangles := validTriangles cols rows (getTriangleList subdiv) in
        if warp then
          match getFloats "ProcrustesStats" (file src) with
          | r00 :: r10 :: r11 :: r01 :: mean0 :: mean1 :: norm :: _ =>
              let R := mkMatrix2 r00 r01 r10 r11 in
              match warpTriangles (m src) R mean0 mean1 norm scaleFactor cols rows
                                  true triangles (zeros rows cols) [] with
              | Some (image, mappedPoints) =>
                  let dst :=
                    mkTemplate (setRects [boundingRect mappedPoints] (file dst)) image in
                  Done (storeTriangles triangles dst) []
              | None => IndexOutOfRange
              end
          | _ => IndexOutOfRange
          end
        else Done (storeTriangles triangles src) []
    end.
End DelaunayTransform.
End DelaunayTransform.

(** ** DrawDelaunayTransform *)

(** [cv::line(image, a, b, Scalar(0,0,0), 1)]: the image with the segment
    drawn. *)
Class OpenCVDraw (F : Type) := {
  line : Mat -> Point F -> Point F -> Mat
}.

Module DrawDelaunayTransform.
Section DrawDelaunayTransform.
Context {F : Type} {num : Scalar F} {draw : OpenCVDraw F}.

(** Modelled from the spec: [File::getList<QPointF>]; a key that is absent
    (or holds numbers) reads as the empty list. *)
Definition getPoints (key : string) (f : File F) : list (Point F) :=
  match file_metadata f !! key with
  | Some (VPoints l) => l
  | _ => []
  end.

(** Lines 298-302: three segments for every three points.  [None] when
    [i+1] or [i+2] runs past the end of the list. *)
Fixpoint drawTriangles (validTriangles : list (Point F)) (image : Mat) : option Mat :=
  match validTriangles with
  | [] => Some image
  | a :: b :: c :: rest =>
      drawTriangles rest (line (line (line image a b) b c) c a)
  | _ => None
  end.

(** [project]: the value left in [dst], which the caller passes in; only
    its image is written. *)
Definition project (src dst : Template F) : Outcome (Template F) :=
  let validTriangles := toPoints (getPoints "DelaunayTriangles" (file src)) in
  match drawTriangles validTriangles (m src) with
  | Some image => Done (mkTemplate (file dst) image) []
  | None => IndexOutOfRange
  end.
End DrawDelaunayTransform.
End DrawDelaunayTransform.

(** ** slidingwindow.cpp *)

(** [int]: a sum, a difference or a product of two [int]s is an [int].  The
    embedding keeps an [int] as the integer it holds and reduces every result
    to 32 bits, two's complement, which is what the compiled code computes
    when the exact result does not fit. *)
Definition wrap_int (z : Z) : Z := ((z + 2 ^ 31) mod 2 ^ 32 - 2 ^ 31)%Z.
Definition int_add (a b : Z) : Z := wrap_int (a + b).
Definition int_sub (a b : Z) : Z := wrap_int (a - b).
Definition int_mul (a b : Z) : Z := wrap_int (a * b).

(** [cv::Rect]: corner, width and height, all [int]. *)
Record CvRect : Type := mkCvRect { rc_x : Z; rc_y : Z; rc_width : Z; rc_height : Z }.

(** [Rect::area] ([width * height]) and the intersection [a & b] of OpenCV:
    [x1 = max(a.x, b.x)], [width = min(a.x + a.width, b.x + b.width) - x1],
    the same for [y], and the empty [Rect()] when the width or the height
    found is not positive. *)
Definition area (r : CvRect) : Z := int_mul (rc_width r) (rc_height r).
Definition intersect (a b : CvRect) : CvRect :=
  let x1 := Z.max (rc_x a) (rc_x b) in
  let y1 := Z.max (rc_y a) (rc_y b) in
  let w := int_sub (Z.min (int_add (rc_x a) (rc_width a))
                          (int_add (rc_x b) (rc_width b))) x1 in
  let h := int_sub (Z.min (int_add (rc_y a) (rc_height a))
                          (int_add (rc_y b) (rc_height b))) y1 in
  if (w <=? 0)%Z || (h <=? 0)%Z then mkCvRect 0 0 0 0 else mkCvRect x1 y1 w h.

(** [OpenCVUtils::toRect] (openbr/core/opencvutils): a [QRectF] as a
    [cv::Rect]. *)
Class RectConversion (F : Type) := {
  toRect : QRectF F -> CvRect
}.

(** The transform a window is handed to: [transform->project(windowTemplate,
    detect)] followed by [detect.m().at<float>(0)]. *)
Class WindowClassifier (F : Type) := {
  confidence : Template F -> F
}.

(** [Mat(image, Rect(x, y, w, h))]: the region of the image, or [None]
    where OpenCV's assertion on the region fails. *)
Definition subMat (image : Mat) (x y w h : Z) : option Mat :=
  if ((0 <=? x) && (0 <=? w) && (x + w <=? mat_cols image)
      && (0 <=? y) && (0 <=? h) && (y + h <=? mat_rows image))%Z
  then Some (matOf h w (fun i =>
               nth (Z.to_nat ((y + Z.of_nat i / w) * mat_cols image
                              + x + Z.of_nat i mod w))
                   (mat_data image) 0%Z))
  else None.

Section AspectRatio.
Context {F : Type} {num : Scalar F} {conversion : RectConversion F}.

(** Line 23: the test that makes [getAspectRatio] skip a rect; the two
    sums are [int]s. *)
Definition skipped (image : Mat) (posRect : CvRect) : bool :=
  ((mat_cols image <=? int_add (rc_x posRect) (rc_width posRect))
   || (mat_rows image <=? int_add (rc_y posRect) (rc_height posRect))
   || (rc_x posRect <? 0) || (rc_y posRect <? 0))%Z.

(** Lines 22-28: [tempRatio] and [ratioCnt] (an [int]) after the rects of
    one record. *)
Definition addRatios (image : Mat) (posRects : list CvRect) (acc : F * Z) : F * Z :=
  fold_left (fun acc posRect =>
               if skipped image posRect then acc
               else (fadd (fst acc)
                          (to_float (fdiv (to_float (of_Z (rc_width posRect)))
                                          (to_float (of_Z (rc_height posRect))))),
                     int_add (snd acc) 1))
            posRects acc.

(** [getAspectRatio], lines 15-31. *)
Definition getAspectRatio (data : list (Template F)) : F :=
  let sums :=
    fold_left (fun acc tmpl =>
                 addRatios (m tmpl) (map toRect (file_rects (file tmpl))) acc)
              data (f0, 0%Z) in
  to_float (fdiv (fst sums) (of_Z (snd sums))).
End AspectRatio.

(** How a loop of the scan ends: at its condition, at the [return] of
    [takeFirst], with an OpenCV exception, or not within the steps given. *)
Inductive Scan (A : Type) : Type :=
| Finished (a : A)
| EarlyReturn (a : A)
| Raised
| Unfinished.
Arguments Finished {A} a.
Arguments EarlyReturn {A} a.
Arguments Raised {A}.
Arguments Unfinished {A}.

Module SlidingWindowTransform.
Section SlidingWindowTransform.
Context {F : Type} {num : Scalar F} {classifier : WindowClassifier F}.
Variables (stepSize windowWidth windowHeight : Z) (takeFirst : bool) (threshold : F).

(** Modelled from the spec: [File::clearRects] and [File::appendRect]
    (openbr.h) empty the rects and add one rect after those the record
    has. *)
Definition clearRects (f : File F) : File F :=
  mkFile (file_points f) [] (file_metadata f).
Definition appendRect (r : QRectF F) (f : File F) : File F :=
  mkFile (file_points f) (file_rects f ++ [r]) (file_metadata f).

(** Line 89: the rect of a detection. *)
Definition windowRect (scale : F) (x y : Z) : QRectF F :=
  Rect (to_float (fmul (to_float (of_Z x)) scale))
       (to_float (fmul (to_float (of_Z y)) scale))
       (to_float (fmul (to_float (of_Z windowWidth)) scale))
       (to_float (fmul (to_float (of_Z windowHeight)) scale)).

(** Lines 80-94, the loop over [x] in the row [y]; the state is [dst.file]
    and [confidences].  The counters are doubles that hold integers. *)
Fixpoint scanRow (fuel : nat) (src : Template F) (scale : F) (y x : Z)
         (state : File F * list F) : Scan (File F * list F) :=
  match fuel with
  | O => Unfinished
  | S fuel' =>
      if (x + windowWidth <? mat_cols (m src))%Z then
        match subMat (m src) x y windowWidth windowHeight with
        | None => Raised
        | Some windowMat =>
            let conf := confidence (mkTemplate (file src) windowMat) in
            if fltb threshold conf then
              let state' :=
                (appendRect (windowRect scale x y) (fst state), snd state ++ [conf]) in
              if takeFirst then EarlyReturn state'
              else scanRow fuel' src scale y (x + stepSize)%Z state'
            else scanRow fuel' src scale y (x + stepSize)%Z state
        end
      else Finished state
  end.

(** Lines 79-95, the loop over [y]. *)
Fixpoint scanRows (fuel rowFuel : nat) (src : Template F) (scale : F) (y : Z)
         (state : File F * list F) : Scan (File F * list F) :=
  match fuel with
  | O => Unfinished
  | S fuel' =>
      if (y + windowHeight <? mat_rows (m src))%Z then
        match scanRow rowFuel src scale y 0 state with
        | Finished state' => scanRows fuel' rowFuel src scale (y + stepSize)%Z state'
        | other => other
        end
      else Finished state
  end.

(** [project], lines 69-97.  [train] and [scale] are what the lookups
    [getBool("Train", false)] and [get<float>("scale", 1)] return. *)
Definition project (fuel : nat) (train : bool) (scale : F) (src : Template F)
  : Scan (Template F) :=
  let dst := src in
  if train then Finished dst
  else
    let cleared := clearRects (file dst) in
    let confidences := getFloats "Confidences" cleared in
    match scanRows fuel fuel src scale 0 (cleared, confidences) with
    | Finished (f, confidences) =>
        Finished (mkTemplate (setList "Confidences" (VFloats confidences) f) (m dst))
    | EarlyReturn (f, _) => Finished (mkTemplate f (m dst))
    | Raised => Raised
    | Unfinished => Unfinished
    end.
End SlidingWindowTransform.
End SlidingWindowTransform.

(** ** BuildScalesTransform *)

Module BuildScalesTransform.
Section BuildScalesTransform.
Context {F : Type} {num : Scalar F}.

(** [overlaps], lines 201-209. *)
Fixpoint overlaps (posRects : list CvRect) (negRect : CvRect) (overlap : F) : bool :=
  match posRects with
  | [] => false
  | posRect :: rest =>
      if fltb (fmul overlap (of_Z (area posRect))) (of_Z (area (intersect negRect posRect)))
      then true
      else overlaps rest negRect overlap
  end.
End BuildScalesTransform.
End BuildScalesTransform.

(** ** Names used in the statements *)

Section Vocabulary.
Context {F : Type} {num : Scalar F}.

(** A record [train] and [project] work on: it has points and rects. *)
Definition usable (t : Template F) : bool :=
  negb (isEmpty (file_points (file t)) || isEmpty (file_rects (file t))).

(** The landmarks of a record followed by the corners of its last rect. *)
Definition fullPoints (t : Template F) : list (Point F) :=
  appendCorners (file_points (file t)) (file_rects (file t)).

(** The rotation [R] that [ProcrustesTransform::project] computes for a
    record, and the rotated normalized shape [srcMat*R]. *)
Definition rotationOf {eigen : EigenLib F} (meanShape : list (F * F)) (t : Template F)
  : Matrix2 F :=
  procrustesRotation (ProcrustesTransform.srcMat (fullPoints t)) meanShape.
Definition alignedPoints {eigen : EigenLib F} (meanShape : list (F * F)) (t : Template F)
  : list (Point F) :=
  ProcrustesTransform.dstMat (rotationOf meanShape t)
                             (ProcrustesTransform.srcMat (fullPoints t)).
End Vocabulary.

Section WarpVocabulary.
Context {F : Type} {num : Scalar F} {opencv : OpenCVLib F}.

(** The subdivision after the insertion loop has run to its end. *)
Definition insertAll (points : list (Point F)) (subdiv : Subdiv2D) : Subdiv2D :=
  fold_left (fun s p => subdiv_insert s (toPoint p)) points subdiv.

(** The triangle number [k] of a flat list of vertices. *)
Definition nthTriangle (triangles : list (Point F)) (k : nat) : option (Vec6f F) :=
  match triangles !! (3 * k), triangles !! (3 * k + 1), triangles !! (3 * k + 2) with
  | Some a, Some b, Some c => Some (a, b, c)
  | _, _, _ => None
  end.

Variables (image : Mat) (R : Matrix2 F) (mean0 mean1 norm scaleFactor : F).
Variables (cols rows : Z).

(** What a triangle draws at a pixel when nothing was drawn there before:
    the resampled source pixel where its mask is set, zero elsewhere. *)
Definition triangleValue (t : Vec6f F) (i : nat) : Z :=
  let '(a, b, c) := t in
  let w := DelaunayTransform.warpedPoint R mean0 mean1 norm scaleFactor cols rows in
  Z.land (warpAffine image (toPoint a, toPoint b, toPoint c) (w a, w b, w c) cols rows i)
         (if fillConvexPoly (w a, w b, w c) rows cols i then 255 else 0)%Z.

(** The value of the first triangle of the list that draws a non-zero value
    at the pixel; zero when there is none. *)
Fixpoint firstValue (triangles : list (Point F)) (i : nat) : Z :=
  match triangles with
  | a :: b :: c :: rest =>
      if (triangleValue (a, b, c) i =? 0)%Z then firstValue rest i
      else triangleValue (a, b, c) i
  | _ => 0%Z
  end.
End WarpVocabulary.
Arguments triangleValue : simpl never.

Section ScanVocabulary.
Context {F : Type} {num : Scalar F} {classifier : WindowClassifier F}.
Variables (stepSize windowWidth windowHeight : Z) (threshold : F).

(** The values a loop counter takes: 0, stepSize, 2*stepSize, ... as long
    as the window that starts there ends before [extent]. *)
Definition offsets (extent window : Z) : list Z :=
  map (fun k => (Z.of_nat k * stepSize)%Z)
      (seq 0 (Z.to_nat ((extent - window + stepSize - 1) / stepSize))).

(** The corners (x, y) of the windows of an image, row after row. *)
Definition windows (image : Mat) : list (Z * Z) :=
  flat_map (fun y => map (fun x => (x, y)) (offsets (mat_cols image) windowWidth))
           (offsets (mat_rows image) windowHeight).

(** The confidence of the window at a corner, and whether it is above the
    threshold. *)
Definition windowConfidence (src : Template F) (corner : Z * Z) : F :=
  match subMat (m src) (fst corner) (snd corner) windowWidth windowHeight with
  | Some windowMat => confidence (mkTemplate (file src) windowMat)
  | None => f0
  end.
Definition detected (src : Template F) (corner : Z * Z) : bool :=
  fltb threshold (windowConfidence src corner).
Definition detections (src : Template F) : list (Z * Z) :=
  List.filter (detected src) (windows (m src)).
End ScanVocabulary.

Section ScanWalk.
Context {F : Type} {num : Scalar F} {classifier : WindowClassifier F}.
Variables (windowWidth windowHeight : Z) (takeFirst : bool) (threshold : F).

(** The scan as a walk over a list of corners: what the two loops do at
    each corner they visit. *)
Fixpoint scanOver (src : Template F) (scale : F) (corners : list (Z * Z))
         (state : File F * list F) : Scan (File F * list F) :=
  match corners with
  | [] => Finished state
  | corner :: rest =>
      if detected windowWidth windowHeight threshold src corner then
        let state' :=
          (SlidingWindowTransform.appendRect
             (SlidingWindowTransform.windowRect windowWidth windowHeight scale
                                               (fst corner) (snd corner))
             (fst state),
           snd state ++ [windowConfidence windowWidth windowHeight src corner]) in
        if takeFirst then EarlyReturn state' else scanOver src scale rest state'
      else scanOver src scale rest state
  end.
End ScanWalk.

(** The pixel (px, py) lies in the rect. *)
Definition containsPixel (r : CvRect) (px py : Z) : Prop :=
  (rc_x r <= px < rc_x r + rc_width r /\ rc_y r <= py < rc_y r + rc_height r)%Z.

(** A rect whose corner, width and height are not negative, and whose right
    and bottom sides are [int]s. *)
Definition plainRect (r : CvRect) : Prop :=
  (0 <= rc_x r /\ 0 <= rc_y r /\ 0 <= rc_width r /\ 0 <= rc_height r
   /\ rc_x r + rc_width r < 2 ^ 31 /\ rc_y r + rc_height r < 2 ^ 31)%Z.

(** The number of rects of a list of records. *)
Definition rectCount {F : Type} (data : list (Template F)) : nat :=
  length (flat_map (fun tmpl => file_rects (file tmpl)) data).


(** ** Sample records (binary64 coordinates) *)

Definition fl (z : Z) : PrimFloat.float := binary64_of_Z z.

Definition blank (rows cols : Z) : Mat := zeros rows cols.

(** One landmark at (1,1) and the bounding region (1,1) of size 0 x 0: the
    five points of the shape coincide. *)
Definition coincident : Template PrimFloat.float :=
  mkTemplate (mkFile [Pt (fl 1) (fl 1)] [Rect (fl 1) (fl 1) (fl 0) (fl 0)] ∅)
             (blank 4 4).

(** Two landmarks inside a 4 x 4 image, bounding region (0,0)-(3,3). *)
Definition twoLandmarks : Template PrimFloat.float :=
  mkTemplate (mkFile [Pt (fl 1) (fl 1); Pt (fl 2) (fl 1)]
                     [Rect (fl 0) (fl 0) (fl 3) (fl 3)] ∅)
             (matOf 4 4 (fun i => Z.of_nat i)).

(** One landmark, same image and bounding region. *)
Definition oneLandmark : Template PrimFloat.float :=
  mkTemplate (mkFile [Pt (fl 1) (fl 2)] [Rect (fl 0) (fl 0) (fl 3) (fl 3)] ∅)
             (matOf 4 4 (fun i => Z.of_nat i)).

(** A landmark at x = width of a 4 x 4 image. *)
Definition onBoundary : Template PrimFloat.float :=
  mkTemplate (mkFile [Pt (fl 1) (fl 1); Pt (fl 4) (fl 1)]
                     [Rect (fl 0) (fl 0) (fl 3) (fl 3)] ∅)
             (matOf 4 4 (fun i => Z.of_nat i)).

(** A record without rects. *)
Definition noRects : Template PrimFloat.float :=
  mkTemplate (mkFile [Pt (fl 1) (fl 1)] [] ∅) (blank 4 4).

(** The binary64 number nearest to [digits / scale]. *)
Definition decimal (digits scale : Z) : PrimFloat.float :=
  PrimFloat.div (fl digits) (fl scale).


(** A landmark at (1000000.025, 1000000.005) and the bounding region of
    side 0.01 at (1000000.02, 1000000): five distinct points that all
    narrow to the [float] 1000000. *)
Definition farCluster : Template PrimFloat.float :=
  mkTemplate (mkFile [Pt (decimal 1000000025 1000) (decimal 1000000005 1000)]
                     [Rect (decimal 100000002 100) (fl 1000000)
                           (decimal 1 100) (decimal 1 100)] ∅)
             (blank 4 4).

(** A stand-in for Eigen on the sample records: the identity rotation. *)
Definition identityRotation : EigenLib PrimFloat.float :=
  {| procrustesRotation := fun _ _ => mkMatrix2 (fl 1) (fl 0) (fl 0) (fl 1) |}.

(** The record [twoLandmarks] after alignment with the identity rotation. *)
Definition alignedTwoLandmarks : Template PrimFloat.float :=
  match ProcrustesTransform.project (eigen := identityRotation) false [] twoLandmarks with
  | Done dst _ => dst
  | _ => twoLandmarks
  end.

(** A stand-in for OpenCV on the sample records.  The subdivision keeps the
    rectangle and the inserted vertices; its triangles are the fan of the
    first vertex over the others and one triangle on the outer vertices
    [cv::Subdiv2D] places at three times the larger side.  Resampling copies
    the source pixel, every mask covers the whole image, and the bounding
    box is the one of the first mapped point. *)
Definition fanTriangles (vs : list (Point PrimFloat.float)) : list (Vec6f PrimFloat.float) :=
  match vs with
  | [] => []
  | v :: others => zip_with (fun a b => (v, a, b)) others (tail others)
  end.

Definition sampleOpenCV : OpenCVLib PrimFloat.float := {|
  Subdiv2D := (Z * Z * list (Point PrimFloat.float))%type;
  subdiv_new := fun cols rows => (cols, rows, []);
  subdiv_insert := fun s p => (fst s, snd s ++ [p]);
  getTriangleList := fun s =>
    let big := fl (3 * Z.max (fst (fst s)) (snd (fst s))) in
    (Pt big (fl 0), Pt (fl 0) big, Pt (fsub (fl 0) big) (fsub (fl 0) big))
      :: fanTriangles (snd s);
  warpAffine := fun image _ _ _ _ i => nth i (mat_data image) 0%Z;
  fillConvexPoly := fun _ _ _ _ => true;
  boundingRect := fun ps =>
    match ps with
    | [] => Rect (fl 0) (fl 0) (fl 0) (fl 0)
    | p :: _ => Rect (pt_x p) (pt_y p) (fl 1) (fl 1)
    end
|}.

(** The triangles the stand-in keeps for [twoLandmarks]. *)
Definition sampleTriangles : list (Point PrimFloat.float) :=
  DelaunayTransform.validTriangles
    4 4 (getTriangleList
           (insertAll (opencv := sampleOpenCV) (fullPoints twoLandmarks) (subdiv_new 4 4))).

(** One landmark at (1,1), bounding region (0,0)-(2,2), real coordinates. *)
Definition squareR : Template R :=
  mkTemplate (mkFile [Pt 1%R 1%R] [Rect 0%R 0%R 2%R 2%R] ∅) (blank 3 3).

(** The stand-in for OpenCV with masks that cover the first eight pixels
    (the two upper rows of a 4 x 4 image) only. *)
Definition halfMaskOpenCV : OpenCVLib PrimFloat.float := {|
  Subdiv2D := @Subdiv2D _ sampleOpenCV;
  subdiv_new := @subdiv_new _ sampleOpenCV;
  subdiv_insert := @subdiv_insert _ sampleOpenCV;
  getTriangleList := @getTriangleList _ sampleOpenCV;
  warpAffine := @warpAffine _ sampleOpenCV;
  fillConvexPoly := fun _ _ _ i => i <? 8;
  boundingRect := @boundingRect _ sampleOpenCV
|}.

(** A stand-in for [cv::line]: it counts the segments drawn in the first
    pixel. *)
Definition countingDraw : OpenCVDraw PrimFloat.float := {|
  line := fun image _ _ =>
    mkMat (mat_rows image) (mat_cols image)
          (match mat_data image with
           | [] => []
           | v :: rest => (v + 1)%Z :: rest
           end)
|}.

(** Stand-ins over the real numbers: the identity rotation, and an OpenCV
    that triangulates nothing. *)
Definition identityRotationR : EigenLib R :=
  {| procrustesRotation := fun _ _ => mkMatrix2 1%R 0%R 0%R 1%R |}.

Definition emptyOpenCVR : OpenCVLib R := {|
  Subdiv2D := unit;
  subdiv_new := fun _ _ => tt;
  subdiv_insert := fun s _ => s;
  getTriangleList := fun _ => [];
  warpAffine := fun _ _ _ _ _ _ => 0%Z;
  fillConvexPoly := fun _ _ _ _ => false;
  boundingRect := fun _ => Rect 0%R 0%R 0%R 0%R
|}.

(** A stand-in for the classifier of the windows: the value of the first
    pixel of the window. *)
Definition firstPixel : WindowClassifier PrimFloat.float :=
  {| confidence := fun t => fl (nth 0 (mat_data (m t)) 0%Z) |}.

(** Stand-ins for [OpenCVUtils::toRect]: truncation of binary64
    coordinates towards zero, and over the reals a conversion that reads
    every rect as the 2 x 1 rect at the origin. *)
Definition truncate (d : PrimFloat.float) : Z :=
  match FloatOps.Prim2SF d with
  | SpecFloat.S754_finite s mantissa e =>
      let magnitude :=
        match e with
        | Z.neg shift => (Z.pos mantissa / 2 ^ Z.pos shift)%Z
        | _ => (Z.pos mantissa * 2 ^ e)%Z
        end in
      if s then (- magnitude)%Z else magnitude
  | _ => 0%Z
  end.

Definition truncatingRects : RectConversion PrimFloat.float :=
  {| toRect := fun r => mkCvRect (truncate (rect_x r)) (truncate (rect_y r))
                                 (truncate (rect_w r)) (truncate (rect_h r)) |}.

Definition constantRectR : RectConversion R :=
  {| toRect := fun _ => mkCvRect 0 0 2 1 |}.

(** A record whose rect is the whole 4 x 4 image. *)
Definition wholeImage : Template PrimFloat.float :=
  mkTemplate (mkFile [] [Rect (fl 0) (fl 0) (fl 4) (fl 4)] ∅)
             (matOf 4 4 (fun i => Z.of_nat i)).

(** * Properties *)

(** ** Records and lists *)

Section RecordFacts.
Context {F : Type} {num : Scalar F}.

Lemma isEmpty_false_iff {A : Type} (l : list A) : isEmpty l = false <-> l <> [].
Proof. destruct l; simpl; split; congruence. Qed.

Lemma usable_true_iff (t : Template F) :
  usable t = true <->
  file_points (file t) <> [] /\ file_rects (file t) <> [].
Proof.
  unfold usable.
  rewrite negb_true_iff, orb_false_iff, !isEmpty_false_iff. reflexivity.
Qed.

Lemma appendPoints_fold (ps : list (Point F)) (f : File F) :
  fold_left (fun f p => appendPoint p f) ps f
  = mkFile (file_points f ++ ps) (file_rects f) (file_metadata f).
Proof.
  revert f. induction ps as [|p ps IH]; intros f; simpl.
  - rewrite app_nil_r. destruct f; reflexivity.
  - rewrite IH. simpl. rewrite <- app_assoc. reflexivity.
Qed.

Lemma appendCorners_length (points : list (Point F)) (rects : list (QRectF F)) :
  rects <> [] -> length (appendCorners points rects) = length points + 4.
Proof.
  intros Hr. unfold appendCorners.
  destruct (last rects) as [r|] eqn:E.
  - rewrite length_app. reflexivity.
  - apply last_None in E. contradiction.
Qed.

Lemma normalizeShape_length (ps : list (Point F)) :
  length (normalizeShape ps) = length ps.
Proof. unfold normalizeShape, divideBy, centerAt. rewrite !length_map. reflexivity. Qed.
End RecordFacts.

(** ** Alignment ([ProcrustesTransform::project]) *)

Section AlignmentFacts.
Context {F : Type} {num : Scalar F} {eigen : EigenLib F}.

(** What [project] leaves in [dst] for a record with points and rects. *)
Lemma project_usable (warp : bool) (meanShape : list (F * F)) (src : Template F) :
  usable src = true ->
  ProcrustesTransform.project warp meanShape src
  = Done (mkTemplate
            (mkFile (file_points (file src)
                       ++ (if warp then alignedPoints meanShape src else []))
                    (file_rects (file src))
                    (<["ProcrustesStats" :=
                         VFloats (ProcrustesTransform.procrustesStats
                                    (rotationOf meanShape src)
                                    (shapeMean (fullPoints src))
                                    (shapeNorm (fullPoints src)))]>
                       (file_metadata (file src))))
            (m src)) [].
Proof.
  intros Hu. unfold usable in Hu. apply negb_true_iff in Hu.
  unfold ProcrustesTransform.project. rewrite Hu.
  destruct warp; simpl.
  - rewrite appendPoints_fold. reflexivity.
  - rewrite app_nil_r. reflexivity.
Qed.

Lemma project_unusable (warp : bool) (meanShape : list (F * F)) (src : Template F) :
  usable src = false ->
  ProcrustesTransform.project warp meanShape src
  = Done src ["Procrustes alignment failed because points or rects are empty."].
Proof.
  intros Hu. unfold usable in Hu. apply negb_false_iff in Hu.
  unfold ProcrustesTransform.project. rewrite Hu. reflexivity.
Qed.

(** C10.  Alignment never touches the image: on every path (points or
    rects missing, warp on, warp off) [project] returns a record whose
    image is the image of the input.  What changes is the metadata only:
    the rects are kept, every key other than "ProcrustesStats" is kept,
    and the points of the input are kept as a prefix, to which points
    are appended only when [warp] is set. *)
Theorem alignment_keeps_image (warp : bool) (meanShape : list (F * F))
        (src : Template F) :
  exists dst warnings added,
    ProcrustesTransform.project warp meanShape src = Done dst warnings
    /\ m dst = m src
    /\ file_rects (file dst) = file_rects (file src)
    /\ file_points (file dst) = file_points (file src) ++ added
    /\ (warp = false -> added = [])
    /\ (forall key, key <> "ProcrustesStats" ->
                    file_metadata (file dst) !! key = file_metadata (file src) !! key).
Proof.
  destruct (usable src) eqn:Hu.
  - rewrite (project_usable warp meanShape src Hu).
    eexists _, _, _. split; [reflexivity|]. simpl.
    repeat split.
    + intros ->. reflexivity.
    + intros key Hk. rewrite lookup_insert_ne by congruence. reflexivity.
  - rewrite (project_unusable warp meanShape src Hu).
    exists src, ["Procrustes alignment failed because points or rects are empty."], [].
    rewrite app_nil_r. repeat split.
Qed.

(** C8.  On every successful alignment (the record has points and rects)
    the key "ProcrustesStats" holds exactly seven numbers, in the order
    R(0,0), R(1,0), R(1,1), R(0,1), mean_x, mean_y, norm: [R] is the
    rotation Eigen derived from [srcMat] and [meanShape], the mean and the
    norm are those measured before the points were normalized. *)
Theorem alignment_stores_stats (warp : bool) (meanShape : list (F * F))
        (src : Template F) :
  file_points (file src) <> [] ->
  file_rects (file src) <> [] ->
  exists dst,
    ProcrustesTransform.project warp meanShape src = Done dst []
    /\ file_metadata (file dst) !! "ProcrustesStats"
       = Some (VFloats [m00 (rotationOf meanShape src);
                        m10 (rotationOf meanShape src);
                        m11 (rotationOf meanShape src);
                        m01 (rotationOf meanShape src);
                        to_float (fst (cv_mean (toPoints (fullPoints src))));
                        to_float (snd (cv_mean (toPoints (fullPoints src))));
                        to_float (cv_norm (toPoints
                           (centerAt (cv_mean (toPoints (fullPoints src)))
                                     (fullPoints src))))]).
Proof.
  intros Hp Hr.
  assert (Hu : usable src = true) by (apply usable_true_iff; split; assumption).
  rewrite (project_usable warp meanShape src Hu).
  eexists. split; [reflexivity|]. simpl.
  rewrite lookup_insert_eq. reflexivity.
Qed.

(** C4, as amended.  With [warp] set, alignment appends the rotated
    normalized shape (landmarks and the four corners, [srcMat*R]) after
    the landmarks the record already has. *)
Theorem alignment_appends_aligned_points (meanShape : list (F * F))
        (src : Template F) :
  file_points (file src) <> [] ->
  file_rects (file src) <> [] ->
  exists dst,
    ProcrustesTransform.project true meanShape src = Done dst []
    /\ file_points (file dst) = file_points (file src) ++ alignedPoints meanShape src
    /\ length (alignedPoints meanShape src) = length (file_points (file src)) + 4.
Proof.
  intros Hp Hr.
  assert (Hu : usable src = true) by (apply usable_true_iff; split; assumption).
  rewrite (project_usable true meanShape src Hu).
  eexists. split; [reflexivity|]. simpl. split; [reflexivity|].
  unfold alignedPoints, ProcrustesTransform.dstMat, ProcrustesTransform.srcMat.
  rewrite !length_map, normalizeShape_length.
  unfold fullPoints. apply appendCorners_length. assumption.
Qed.
End AlignmentFacts.

Lemma alignment_stores_stats_witness :
  exists dst stats,
    ProcrustesTransform.project (eigen := identityRotation) false [] oneLandmark
    = Done dst []
    /\ file_metadata (file dst) !! "ProcrustesStats" = Some (VFloats stats)
    /\ length stats = 7.
Proof.
  destruct (alignment_stores_stats (eigen := identityRotation) false [] oneLandmark)
    as [dst [Hrun Hstats]]; [vm_compute; discriminate | vm_compute; discriminate |].
  exists dst. eexists. split; [exact Hrun|]. split; [exact Hstats|]. reflexivity.
Defined.

Lemma alignment_appends_aligned_points_witness :
  exists dst,
    ProcrustesTransform.project (eigen := identityRotation) true [] oneLandmark
    = Done dst []
    /\ file_points (file dst)
       = Pt (fl 1) (fl 2) :: alignedPoints (eigen := identityRotation) [] oneLandmark
    /\ length (file_points (file dst)) = 6.
Proof.
  destruct (alignment_appends_aligned_points (eigen := identityRotation) [] oneLandmark)
    as [dst [Hrun [Hpoints Hlen]]]; [vm_compute; discriminate | vm_compute; discriminate |].
  exists dst. split; [exact Hrun|]. split; [exact Hpoints|].
  rewrite Hpoints, length_app, Hlen. reflexivity.
Defined.

(** C4 as stated fails: on the record with one landmark, whatever rotation
    Eigen returns, the points of the aligned record are not the rotated
    normalized shape (five points) but six points, the old landmark first. *)
Lemma alignment_points_not_replaced :
  ~ (exists (eigen : EigenLib PrimFloat.float) dst warnings,
        ProcrustesTransform.project true [] oneLandmark = Done dst warnings
        /\ file_points (file dst) = alignedPoints [] oneLandmark).
Proof.
  intros (eigen & dst & warnings & Hrun & Hpoints).
  rewrite project_usable in Hrun by reflexivity.
  injection Hrun as <- _. simpl in Hpoints.
  apply (f_equal length) in Hpoints. cbn [length] in Hpoints.
  exact (Nat.neq_succ_diag_l _ Hpoints).
Qed.

(** ** Training ([ProcrustesTransform::train]) *)

Section TrainingFacts.
Context {F : Type} {num : Scalar F}.

Lemma normalizedPoints_filter (data : list (Template F)) :
  ProcrustesTransform.normalizedPoints data
  = map (fun d => normalizeShape (fullPoints d)) (List.filter usable data).
Proof.
  induction data as [|d data IH]; simpl; [reflexivity|].
  unfold usable at 1.
  destruct (isEmpty (file_points (file d)) || isEmpty (file_rects (file d)));
    simpl; rewrite IH; reflexivity.
Qed.

Lemma filter_usable_nil (data : list (Template F)) :
  List.filter usable data = [] <-> Forall (fun d => usable d = false) data.
Proof.
  induction data as [|d data IH]; simpl.
  - split; [constructor | reflexivity].
  - destruct (usable d) eqn:Hd; split; intros Hx.
    + discriminate.
    + inversion Hx; congruence.
    + constructor; [assumption | apply IH; assumption].
    + inversion Hx; apply IH; assumption.
Qed.

Lemma fullPoints_length (d : Template F) :
  usable d = true -> length (fullPoints d) = length (file_points (file d)) + 4.
Proof.
  intros Hd. apply usable_true_iff in Hd as [_ Hr].
  unfold fullPoints. apply appendCorners_length. assumption.
Qed.

(** The sums of a column exist when no shape is shorter than the index. *)
Lemma columnSum_is_Some (shapes : list (list (Point F))) (i : nat) :
  Forall (fun shape => i < length shape) shapes ->
  is_Some (ProcrustesTransform.columnSum shapes i).
Proof.
  unfold ProcrustesTransform.columnSum. generalize (f0, f0).
  induction shapes as [|shape shapes IH]; intros acc Hall; simpl.
  - eexists; reflexivity.
  - inversion Hall as [|? ? Hlt Hrest]; subst.
    destruct (lookup_lt_is_Some_2 shape i Hlt) as [p ->].
    destruct acc as [x y]. apply IH. assumption.
Qed.

Lemma columnSum_None_inv (shapes : list (list (Point F))) (i : nat) :
  Exists (fun shape => length shape <= i) shapes ->
  ProcrustesTransform.columnSum shapes i = None.
Proof.
  unfold ProcrustesTransform.columnSum. generalize (Some (f0, f0)).
  induction shapes as [|shape shapes IH]; intros acc Hex; simpl.
  - inversion Hex.
  - inversion Hex as [? ? Hle|? ? Hrest]; subst.
    + rewrite (lookup_ge_None_2 shape i) by lia.
      assert (Hnone : forall l : list (list (Point F)),
                 fold_left (fun acc shape =>
                    match acc, shape !! i with
                    | Some (x, y), Some p => Some (fadd x (pt_x p), fadd y (pt_y p))
                    | _, _ => None
                    end) l None = None).
      { induction l; simpl; auto. }
      destruct acc as [[x y]|]; apply Hnone.
    + apply IH. assumption.
Qed.

Lemma meanRow_is_Some (shapes : list (list (Point F))) (i : nat) :
  Forall (fun shape => i < length shape) shapes ->
  is_Some (ProcrustesTransform.meanRow shapes i).
Proof.
  intros Hall. unfold ProcrustesTransform.meanRow.
  destruct (columnSum_is_Some shapes i Hall) as [[x y] ->].
  eexists; reflexivity.
Qed.

(** Training on shapes none of which is shorter than the first one. *)
Lemma train_shapes_Done (data : list (Template F)) first others :
  ProcrustesTransform.normalizedPoints data = first :: others ->
  Forall (fun shape => length first <= length shape) others ->
  exists meanShape,
    ProcrustesTransform.train data = Done meanShape []
    /\ length meanShape = length first.
Proof.
  intros Hnp Hlen. unfold ProcrustesTransform.train. rewrite Hnp.
  assert (Hsome : is_Some (mapM (ProcrustesTransform.meanRow (first :: others))
                                (seq 0 (length first)))).
  { apply mapM_is_Some_2, Forall_forall. intros i Hi.
    apply elem_of_seq in Hi. apply meanRow_is_Some.
    constructor; [lia|].
    eapply Forall_impl; [exact Hlen|]. simpl. intros shape Hs. lia. }
  destruct Hsome as [meanShape Hm]. rewrite Hm.
  exists meanShape. split; [reflexivity|].
  apply length_mapM in Hm. rewrite length_seq in Hm. congruence.
Qed.

(** Training runs past the end of a shape that is shorter than the first. *)
Lemma train_short_shape (data : list (Template F)) first others :
  ProcrustesTransform.normalizedPoints data = first :: others ->
  Exists (fun shape => length shape < length first) others ->
  ProcrustesTransform.train data = IndexOutOfRange.
Proof.
  intros Hnp Hshort. unfold ProcrustesTransform.train. rewrite Hnp.
  destruct (mapM _ _) as [meanShape|] eqn:Hm; [exfalso | reflexivity].
  apply List.Exists_exists in Hshort as (shape & Hin & Hlt).
  assert (Hsome : is_Some (mapM (ProcrustesTransform.meanRow (first :: others))
                                (seq 0 (length first)))) by (eexists; exact Hm).
  apply mapM_is_Some_1 in Hsome. rewrite Forall_forall in Hsome.
  destruct (Hsome (length shape)) as [row Hrow].
  { apply elem_of_seq. lia. }
  simpl in Hrow. unfold ProcrustesTransform.meanRow in Hrow.
  rewrite columnSum_None_inv in Hrow; [discriminate|].
  apply Exists_cons_tl, List.Exists_exists. exists shape. split; [exact Hin | lia].
Qed.

Lemma train_Fatal_iff (data : list (Template F)) (msg : string) :
  ProcrustesTransform.train data = Fatal msg
  <-> msg = "Unable to calculate normalized points"
      /\ Forall (fun d => usable d = false) data.
Proof.
  unfold ProcrustesTransform.train.
  destruct (ProcrustesTransform.normalizedPoints data) as [|first others] eqn:Hnp.
  - rewrite normalizedPoints_filter in Hnp. apply map_eq_nil in Hnp.
    apply filter_usable_nil in Hnp.
    split.
    + intros Hf. injection Hf as <-. split; [reflexivity | assumption].
    + intros [-> _]. reflexivity.
  - split.
    + destruct (mapM _ _); discriminate.
    + intros [_ Hall]. apply filter_usable_nil in Hall.
      rewrite normalizedPoints_filter, Hall in Hnp. discriminate.
Qed.

(** C6.  Under the precondition of the data model, that all records with
    points and rects have the same number of points, training stops with
    the fatal error "Unable to calculate normalized points", and with no
    other, exactly when no record has both points and rects.  Records
    without points or rects are skipped, and one usable record suffices:
    training then returns a mean shape, with one row per landmark and four
    more for the corners. *)
Theorem training_fatal_iff_no_usable_record (data : list (Template F)) :
  (forall d d', In d data -> In d' data -> usable d = true -> usable d' = true ->
                length (file_points (file d)) = length (file_points (file d'))) ->
  (ProcrustesTransform.train data = Fatal "Unable to calculate normalized points"
   <-> Forall (fun d => usable d = false) data)
  /\ (forall msg, ProcrustesTransform.train data = Fatal msg ->
                  msg = "Unable to calculate normalized points")
  /\ ProcrustesTransform.normalizedPoints data
     = map (fun d => normalizeShape (fullPoints d)) (List.filter usable data)
  /\ (forall d, In d data -> usable d = true ->
        exists meanShape,
          ProcrustesTransform.train data = Done meanShape []
          /\ length meanShape = length (file_points (file d)) + 4).
Proof.
  intros Hsame.
  split.
  { rewrite train_Fatal_iff. split; [intros [_ Hall]; exact Hall | intros Hall; auto]. }
  split; [intros msg Hmsg; apply train_Fatal_iff in Hmsg as [-> _]; reflexivity|].
  split; [apply normalizedPoints_filter|].
  intros d Hd Hu.
  destruct (List.filter usable data) as [|first ds] eqn:Hf.
  { assert (Hin : In d (List.filter usable data)) by (apply filter_In; auto).
    rewrite Hf in Hin. inversion Hin. }
  assert (Hin : forall d', In d' (first :: ds) -> usable d' = true /\ In d' data).
  { intros d' Hd'. rewrite <- Hf in Hd'. apply filter_In in Hd'. tauto. }
  destruct (Hin first (or_introl eq_refl)) as [Hfirst Hfirst_in].
  destruct (train_shapes_Done data (normalizeShape (fullPoints first))
              (map (fun d' => normalizeShape (fullPoints d')) ds)) as [ms [Hrun Hlen]].
  - rewrite normalizedPoints_filter, Hf. reflexivity.
  - apply List.Forall_forall. intros shape Hs. apply in_map_iff in Hs as [d' [<- Hd']].
    rewrite !normalizeShape_length.
    destruct (Hin d' (or_intror Hd')) as [Hu' Hdata].
    rewrite !fullPoints_length by assumption.
    rewrite (Hsame first d' Hfirst_in Hdata Hfirst Hu'). lia.
  - exists ms. split; [assumption|].
    rewrite Hlen, normalizeShape_length, (fullPoints_length first Hfirst).
    rewrite (Hsame first d Hfirst_in Hd Hfirst Hu). reflexivity.
Qed.
End TrainingFacts.

Lemma training_fatal_iff_no_usable_record_witness :
  ProcrustesTransform.train [noRects] = Fatal "Unable to calculate normalized points"
  /\ exists meanShape,
      ProcrustesTransform.train [noRects; twoLandmarks; onBoundary] = Done meanShape []
      /\ length meanShape = 6.
Proof.
  split.
  - apply (training_fatal_iff_no_usable_record [noRects]).
    + intros d d' [<- | []] [<- | []] _ _. reflexivity.
    + repeat constructor.
  - apply (training_fatal_iff_no_usable_record [noRects; twoLandmarks; onBoundary])
      with (d := twoLandmarks).
    + intros d d' [<- | [<- | [<- | []]]] [<- | [<- | [<- | []]]] Hd Hd';
        first [reflexivity | vm_compute in Hd; discriminate Hd
              | vm_compute in Hd'; discriminate Hd'].
    + right. left. reflexivity.
    + reflexivity.
Defined.

(** Outside that precondition the loop of lines 62-69 indexes every shape
    up to the size of the first one: a later record with fewer points makes
    [normalizedPoints[j][i]] run past its end. *)
Lemma train_fewer_points_later :
  usable twoLandmarks = true /\ usable oneLandmark = true
  /\ ProcrustesTransform.train [twoLandmarks; oneLandmark] = IndexOutOfRange.
Proof. vm_compute. repeat split. Qed.

(** ** Degenerate shapes *)

Section DegenerateFacts.
Context {F : Type} {num : Scalar F} {eigen : EigenLib F}.

(** Training on one usable record: every row of the mean shape is the
    corresponding normalized point, summed from zero and divided by one. *)
Lemma train_single (datum : Template F) :
  usable datum = true ->
  ProcrustesTransform.train [datum]
  = Done (map (fun p => (to_float (fdiv (fadd f0 (pt_x p)) (of_Z 1)),
                         to_float (fdiv (fadd f0 (pt_y p)) (of_Z 1))))
              (normalizeShape (fullPoints datum))) [].
Proof.
  intros Hu. unfold ProcrustesTransform.train.
  rewrite normalizedPoints_filter. simpl. rewrite Hu. simpl.
  set (shape := normalizeShape (fullPoints datum)).
  set (row := fun p : Point F => (to_float (fdiv (fadd f0 (pt_x p)) (of_Z 1)),
                                   to_float (fdiv (fadd f0 (pt_y p)) (of_Z 1)))).
  assert (Hm : mapM (ProcrustesTransform.meanRow [shape]) (seq 0 (length shape))
               = Some (map row shape)).
  { apply mapM_Some_2, Forall2_same_length_lookup_2.
    - rewrite length_seq, length_map. reflexivity.
    - intros i j y Hi Hy. apply lookup_seq in Hi as [-> Hlt]. simpl in *.
      rewrite list_lookup_fmap in Hy.
      unfold ProcrustesTransform.meanRow, ProcrustesTransform.columnSum. simpl.
      destruct (shape !! i) as [p|]; [|discriminate].
      injection Hy as <-. reflexivity. }
  rewrite Hm. reflexivity.
Qed.

(** C1, as amended.  Normalization has no check on the norm.  For every
    record with points and rects, whatever the norm of its centred points
    (zero included): alignment returns without a warning, having stored that
    norm as the seventh statistic and, with [warp] set, having appended the
    rotation of the centred points divided by that norm; training on the
    record returns the mean shape made of the centred points divided by that
    norm.  Alignment is never fatal, and training is fatal only when no
    record is usable. *)
Theorem normalization_has_no_norm_check :
  (forall warp meanShape (src : Template F),
      usable src = true ->
      let points := fullPoints src in
      let scaled := divideBy (shapeNorm points) (centerAt (shapeMean points) points) in
      exists dst,
        ProcrustesTransform.project warp meanShape src = Done dst []
        /\ getFloats "ProcrustesStats" (file dst) !! 6 = Some (shapeNorm points)
        /\ (warp = true ->
            file_points (file dst)
            = file_points (file src)
              ++ ProcrustesTransform.dstMat
                   (rotationOf meanShape src)
                   (map (fun p => (to_float (pt_x p), to_float (pt_y p))) scaled)))
  /\ (forall warp meanShape (src : Template F) msg,
         ProcrustesTransform.project warp meanShape src <> Fatal msg)
  /\ (forall datum : Template F,
         usable datum = true ->
         let points := fullPoints datum in
         let scaled := divideBy (shapeNorm points) (centerAt (shapeMean points) points) in
         ProcrustesTransform.train [datum]
         = Done (map (fun p => (to_float (fdiv (fadd f0 (pt_x p)) (of_Z 1)),
                                to_float (fdiv (fadd f0 (pt_y p)) (of_Z 1))))
                     scaled) [])
  /\ (forall (data : list (Template F)) msg,
         ProcrustesTransform.train data = Fatal msg ->
         Forall (fun d => usable d = false) data).
Proof.
  split; [|split; [|split]].
  - intros warp meanShape src Hu points scaled.
    rewrite (project_usable warp meanShape src Hu).
    eexists. split; [reflexivity|]. split.
    + unfold getFloats. simpl. rewrite lookup_insert_eq. reflexivity.
    + intros ->. reflexivity.
  - intros warp meanShape src msg.
    destruct (usable src) eqn:Hu.
    + rewrite (project_usable warp meanShape src Hu). discriminate.
    + rewrite (project_unusable warp meanShape src Hu). discriminate.
  - intros datum Hu points scaled. exact (train_single datum Hu).
  - intros data msg Hf. apply train_Fatal_iff in Hf. tauto.
Qed.
End DegenerateFacts.

Lemma normalization_has_no_norm_check_witness :
  exists dst,
    ProcrustesTransform.project (eigen := identityRotation) true [] coincident
    = Done dst []
    /\ getFloats "ProcrustesStats" (file dst) !! 6 = Some PrimFloat.zero.
Proof.
  destruct (normalization_has_no_norm_check (eigen := identityRotation)) as [Halign _].
  destruct (Halign true [] coincident) as (dst & Hrun & Hnorm & _);
    [vm_compute; reflexivity|].
  exists dst. split; [exact Hrun|]. rewrite Hnorm. vm_compute. reflexivity.
Defined.

(** C1 as stated fails: the five points of the record coincide, the norm of
    the centred shape is zero, and neither training nor alignment reports
    anything.  The centred points are divided by zero, [srcMat] and the mean
    shape are filled with not-a-number, and both operations return; this
    holds whatever rotation Eigen computes. *)
Lemma degenerate_shape_not_reported :
  shapeNorm (fullPoints coincident) = PrimFloat.zero
  /\ ProcrustesTransform.srcMat (fullPoints coincident)
     = repeat (PrimFloat.nan, PrimFloat.nan) 5
  /\ ProcrustesTransform.train [coincident]
     = Done (repeat (PrimFloat.nan, PrimFloat.nan) 5) []
  /\ forall eigen : EigenLib PrimFloat.float,
      exists dst,
        ProcrustesTransform.project true [] coincident = Done dst []
        /\ getFloats "ProcrustesStats" (file dst) !! 6 = Some PrimFloat.zero.
Proof.
  split; [vm_compute; reflexivity|].
  split; [vm_compute; reflexivity|].
  split; [vm_compute; reflexivity|].
  intros eigen. rewrite project_usable by reflexivity.
  eexists. split; [reflexivity|].
  unfold getFloats. simpl. rewrite lookup_insert_eq. vm_compute. reflexivity.
Qed.

(** ** Normalization in exact arithmetic *)

Section NormalizationFacts.
Local Open Scope R_scope.

Local Abbreviation sumOf f ps := (fold_right Rplus 0 (map f ps)).
Local Abbreviation squares := (fun p : Point R => pt_x p * pt_x p + pt_y p * pt_y p).

Lemma toPoints_R (ps : list (Point R)) : toPoints ps = ps.
Proof.
  unfold toPoints. induction ps as [|[x y] ps IH]; simpl; [reflexivity|].
  f_equal. exact IH.
Qed.

Lemma sumPoints_R (ps : list (Point R)) :
  sumPoints ps = (sumOf pt_x ps, sumOf pt_y ps).
Proof.
  unfold sumPoints.
  assert (Hgen : forall a b,
             fold_left (fun acc p => (fadd (fst acc) (pt_x p), fadd (snd acc) (pt_y p)))
                       ps (a, b)
             = (a + sumOf pt_x ps, b + sumOf pt_y ps)).
  { induction ps as [|p ps IH]; intros a b; simpl.
    - f_equal; lra.
    - rewrite IH. f_equal; lra. }
  rewrite Hgen. f_equal; simpl; lra.
Qed.

Lemma sumSquares_R (ps : list (Point R)) : sumSquares ps = sumOf squares ps.
Proof.
  unfold sumSquares.
  assert (Hgen : forall a,
             fold_left (fun acc p =>
                          fadd (fadd acc (fmul (pt_x p) (pt_x p))) (fmul (pt_y p) (pt_y p)))
                       ps a
             = a + sumOf squares ps).
  { induction ps as [|p ps IH]; intros a; simpl.
    - lra.
    - rewrite IH. lra. }
  rewrite Hgen. simpl. lra.
Qed.

Lemma sumOf_squares_nonneg (ps : list (Point R)) : 0 <= sumOf squares ps.
Proof.
  induction ps as [|p ps IH]; simpl; [lra|].
  pose proof (Rle_0_sqr (pt_x p)) as Hx. pose proof (Rle_0_sqr (pt_y p)) as Hy.
  unfold Rsqr in Hx, Hy. lra.
Qed.

Lemma sumOf_centerAt (c : R * R) (ps : list (Point R)) :
  sumOf pt_x (centerAt c ps) = sumOf pt_x ps - INR (length ps) * fst c
  /\ sumOf pt_y (centerAt c ps) = sumOf pt_y ps - INR (length ps) * snd c.
Proof.
  induction ps as [|p ps [IHx IHy]].
  - simpl. split; lra.
  - change (length (p :: ps)) with (S (length ps)). rewrite S_INR.
    simpl. simpl in IHx, IHy. rewrite IHx, IHy. split; lra.
Qed.

Lemma sumOf_divideBy (n : R) (ps : list (Point R)) :
  sumOf pt_x (divideBy n ps) = sumOf pt_x ps / n
  /\ sumOf pt_y (divideBy n ps) = sumOf pt_y ps / n
  /\ sumOf squares (divideBy n ps) = sumOf squares ps * (/ n * / n).
Proof.
  induction ps as [|p ps (IHx & IHy & IHs)].
  - simpl. repeat split; unfold Rdiv; lra.
  - simpl. simpl in IHx, IHy, IHs. rewrite IHx, IHy, IHs.
    repeat split; unfold Rdiv; lra.
Qed.

Lemma cv_mean_R (ps : list (Point R)) :
  ps <> [] ->
  cv_mean ps = (sumOf pt_x ps / INR (length ps), sumOf pt_y ps / INR (length ps)).
Proof.
  intros Hne. unfold cv_mean. destruct ps as [|p ps]; [contradiction|].
  rewrite sumPoints_R. simpl of_Z. rewrite <- INR_IZR_INZ. reflexivity.
Qed.

Lemma shapeNorm_R (ps : list (Point R)) :
  shapeNorm ps = cv_norm (centerAt (cv_mean ps) ps).
Proof.
  unfold shapeNorm, shapeMean. rewrite !toPoints_R. reflexivity.
Qed.

Lemma normalizeShape_R (ps : list (Point R)) :
  normalizeShape ps
  = divideBy (cv_norm (centerAt (cv_mean ps) ps)) (centerAt (cv_mean ps) ps).
Proof.
  unfold normalizeShape. rewrite shapeNorm_R.
  unfold shapeMean. rewrite toPoints_R. reflexivity.
Qed.

(** C7, as amended.  In exact arithmetic, for every point set whose
    centred norm is not zero, the normalized point set (every point minus
    the mean of the points, then divided by the L2 norm of all centred
    coordinates) has its centroid at (0,0) and L2 norm 1. *)
Theorem normalized_shape_centroid_and_norm (ps : list (Point R)) :
  shapeNorm ps <> 0 ->
  cv_mean (toPoints (normalizeShape ps)) = (0, 0)
  /\ cv_norm (toPoints (normalizeShape ps)) = 1.
Proof.
  rewrite shapeNorm_R, toPoints_R, normalizeShape_R.
  set (c := cv_mean ps).
  set (centred := centerAt c ps).
  set (n := cv_norm centred).
  intros Hnorm.
  assert (Hne : ps <> []).
  { intros ->. apply Hnorm. unfold n, cv_norm. simpl. apply sqrt_0. }
  assert (Hlen : INR (length ps) <> 0).
  { apply not_0_INR. destruct ps; [contradiction | simpl; lia]. }
  assert (Hlen' : length (divideBy n centred) = length ps).
  { unfold divideBy, centred, centerAt. rewrite !length_map. reflexivity. }
  assert (Hne' : divideBy n centred <> []).
  { intros Hnil. rewrite Hnil in Hlen'. destruct ps; [contradiction | discriminate]. }
  destruct (sumOf_centerAt c ps) as [Hcx Hcy].
  destruct (sumOf_divideBy n centred) as (Hdx & Hdy & Hds).
  fold centred in Hcx, Hcy.
  split.
  - rewrite (cv_mean_R _ Hne'), Hlen', Hdx, Hdy, Hcx, Hcy.
    unfold c. rewrite (cv_mean_R _ Hne). simpl fst. simpl snd.
    f_equal; field; split; assumption.
  - unfold cv_norm at 1. rewrite sumSquares_R, Hds.
    assert (Hsq : n * n = sumOf squares centred).
    { unfold n, cv_norm. rewrite sumSquares_R.
      apply sqrt_sqrt, sumOf_squares_nonneg. }
    rewrite <- Hsq. simpl.
    replace (n * n * (/ n * / n)) with 1 by (field; exact Hnorm).
    apply sqrt_1.
Qed.
End NormalizationFacts.

(** C7 as stated fails in the arithmetic of the code.  [cv::mean] is taken
    of the points narrowed to [float] (line 96); the five points of
    [farCluster] are distinct but all narrow to 1000000, so every centred
    point keeps its whole offset.  The norm is not zero, and the normalized
    points have their centroid at x > 0.4 instead of 0, whether it is
    measured on the points, on the points narrowed to [float], or on the
    rows of [srcMat]. *)
Lemma normalized_cluster_off_centre :
  usable farCluster = true
  /\ PrimFloat.ltb PrimFloat.zero (shapeNorm (fullPoints farCluster)) = true
  /\ PrimFloat.ltb (decimal 4 10)
                   (fst (cv_mean (normalizeShape (fullPoints farCluster)))) = true
  /\ PrimFloat.ltb (decimal 4 10)
                   (fst (cv_mean (toPoints (normalizeShape (fullPoints farCluster)))))
     = true
  /\ PrimFloat.ltb (decimal 4 10)
                   (fst (cv_mean (map (fun row => Pt (fst row) (snd row))
                                      (ProcrustesTransform.srcMat (fullPoints farCluster)))))
     = true.
Proof. vm_compute. repeat split. Qed.

(** ** Triangulation ([DelaunayTransform::project]) *)

Section TriangulationFacts.
Context {F : Type} {num : Scalar F} {opencv : OpenCVLib F}.

Lemma insertPoints_None (cols rows : Z) (points : list (Point F)) (p : Point F) :
  In p points ->
  DelaunayTransform.outOfBounds cols rows p = true ->
  forall subdiv, DelaunayTransform.insertPoints cols rows points subdiv = None.
Proof.
  intros Hin Hout. induction points as [|q points IH]; intros subdiv; simpl.
  - inversion Hin.
  - destruct (DelaunayTransform.outOfBounds cols rows q) eqn:Hq; [reflexivity|].
    destruct Hin as [-> | Hin]; [congruence|]. apply IH. assumption.
Qed.

Lemma insertPoints_Some (cols rows : Z) (points : list (Point F)) :
  Forall (fun p => DelaunayTransform.outOfBounds cols rows p = false) points ->
  forall subdiv,
    DelaunayTransform.insertPoints cols rows points subdiv
    = Some (insertAll points subdiv).
Proof.
  induction 1 as [|p points Hp _ IH]; intros subdiv; simpl; [reflexivity|].
  rewrite Hp. apply IH.
Qed.

Lemma validTriangles_length (cols rows : Z) (triangleList : list (Vec6f F)) :
  exists k, length (DelaunayTransform.validTriangles cols rows triangleList) = 3 * k.
Proof.
  induction triangleList as [|[[a b] c] rest [k IH]]; simpl.
  - exists 0. reflexivity.
  - destruct (_ || _ || _).
    + exists k. exact IH.
    + exists (S k). simpl. rewrite IH. lia.
Qed.


(** The warp loop consumes any list made of whole triangles. *)
Lemma warpTriangles_is_Some (image : Mat) (R : Matrix2 F)
      (mean0 mean1 norm scaleFactor : F) (cols rows : Z) (k : nat) :
  forall (triangles : list (Point F)) first acc mapped,
    length triangles = 3 * k ->
    is_Some (DelaunayTransform.warpTriangles image R mean0 mean1 norm scaleFactor
                                            cols rows first triangles acc mapped).
Proof.
  induction k as [|k IH]; intros triangles first acc mapped Hlen.
  - destruct triangles; [|discriminate]. simpl. eexists; reflexivity.
  - destruct triangles as [|a [|b [|c rest]]]; try (simpl in Hlen; lia).
    simpl. apply IH. simpl in Hlen. lia.
Qed.

Lemma project_unusable_source (scaleFactor : F) (warp : bool) (src dst : Template F) :
  usable src = false ->
  DelaunayTransform.project scaleFactor warp src dst
  = Done src ["Delauney triangulation failed because points or rects are empty."].
Proof.
  intros Hu. unfold usable in Hu. apply negb_false_iff in Hu.
  unfold DelaunayTransform.project. rewrite Hu. reflexivity.
Qed.


(** What [project] does once every point has passed the test of line 178. *)
Lemma project_accepted (scaleFactor : F) (warp : bool) (src dst : Template F) :
  usable src = true ->
  Forall (fun p => DelaunayTransform.outOfBounds (mat_cols (m src)) (mat_rows (m src)) p
                   = false) (fullPoints src) ->
  let cols := mat_cols (m src) in
  let rows := mat_rows (m src) in
  let triangles :=
    DelaunayTransform.validTriangles
      cols rows (getTriangleList (insertAll (fullPoints src) (subdiv_new cols rows))) in
  (warp = false ->
   DelaunayTransform.project scaleFactor warp src dst
   = Done (DelaunayTransform.storeTriangles triangles src) [])
  /\ (warp = true ->
      7 <= length (getFloats "ProcrustesStats" (file src)) ->
      exists image mapped,
        DelaunayTransform.project scaleFactor warp src dst
        = Done (DelaunayTransform.storeTriangles
                  triangles
                  (mkTemplate (setRects [boundingRect mapped] (file dst)) image)) [])
  /\ (forall out warnings,
         DelaunayTransform.project scaleFactor warp src dst = Done out warnings ->
         warnings = []
         /\ file_metadata (file out) !! "DelaunayTriangles" = Some (VPoints triangles)).
Proof.
  intros Hu Hall cols rows triangles.
  unfold usable in Hu. apply negb_true_iff in Hu.
  unfold DelaunayTransform.project. rewrite Hu.
  fold (fullPoints src). fold cols. fold rows.
  rewrite (insertPoints_Some cols rows (fullPoints src) Hall). fold triangles.
  destruct (validTriangles_length cols rows
              (getTriangleList (insertAll (fullPoints src) (subdiv_new cols rows))))
    as [k Hk]. fold triangles in Hk.
  split; [|split].
  - intros ->. reflexivity.
  - intros -> Hstats.
    destruct (getFloats "ProcrustesStats" (file src))
      as [|r00 [|r10 [|r11 [|r01 [|mean0 [|mean1 [|norm rest]]]]]]];
      try (simpl in Hstats; lia).
    destruct (warpTriangles_is_Some (m src) (mkMatrix2 r00 r01 r10 r11)
                mean0 mean1 norm scaleFactor cols rows k triangles true
                (zeros rows cols) [] Hk) as [[image mapped] Hw].
    rewrite Hw. exists image, mapped. reflexivity.
  - intros out warnings Hrun.
    destruct warp.
    + destruct (getFloats "ProcrustesStats" (file src))
        as [|r00 [|r10 [|r11 [|r01 [|mean0 [|mean1 [|norm rest]]]]]]];
        try discriminate.
      destruct (DelaunayTransform.warpTriangles _ _ _ _ _ _ _ _ _ _ _ _)
        as [[image mapped]|]; [|discriminate].
      injection Hrun as <- <-. split; [reflexivity|].
      simpl. apply lookup_insert_eq.
    + injection Hrun as <- <-. split; [reflexivity|].
      simpl. apply lookup_insert_eq.
Qed.

(** C9.  Once every point has passed the bounds test, [project] stores
    the list "DelaunayTriangles", with warp off and with warp on (given the
    seven alignment statistics); whenever it returns, the list it stored is
    made of whole triangles: its length is a multiple of three. *)
Theorem stored_triangles_come_in_threes
        (scaleFactor : F) (warp : bool) (src dst : Template F) :
  usable src = true ->
  Forall (fun p => DelaunayTransform.outOfBounds (mat_cols (m src)) (mat_rows (m src)) p
                   = false) (fullPoints src) ->
  (warp = false \/ 7 <= length (getFloats "ProcrustesStats" (file src)) ->
   exists out, DelaunayTransform.project scaleFactor warp src dst = Done out [])
  /\ (forall out warnings,
         DelaunayTransform.project scaleFactor warp src dst = Done out warnings ->
         exists triangles k,
           file_metadata (file out) !! "DelaunayTriangles" = Some (VPoints triangles)
           /\ length triangles = 3 * k).
Proof.
  intros Hu Hall.
  destruct (project_accepted scaleFactor warp src dst Hu Hall) as (Hoff & Hon & Hany).
  split.
  - intros Hpath. destruct warp.
    + destruct Hpath as [Hw | Hstats]; [discriminate|].
      destruct (Hon eq_refl Hstats) as (image & mapped & Hrun). eexists; exact Hrun.
    + eexists. apply Hoff. reflexivity.
  - intros out warnings Hrun.
    destruct (Hany out warnings Hrun) as [_ Hstored].
    destruct (validTriangles_length (mat_cols (m src)) (mat_rows (m src))
                (getTriangleList (insertAll (fullPoints src)
                                   (subdiv_new (mat_cols (m src)) (mat_rows (m src))))))
      as [k Hk].
    eexists _, k. split; [exact Hstored | exact Hk].
Qed.

End TriangulationFacts.


Lemma stored_triangles_come_in_threes_witness :
  exists out triangles k,
    DelaunayTransform.project (opencv := sampleOpenCV) (fl 1) true
                              alignedTwoLandmarks noRects = Done out []
    /\ file_metadata (file out) !! "DelaunayTriangles" = Some (VPoints triangles)
    /\ length triangles = 3 * k.
Proof.
  destruct (stored_triangles_come_in_threes
              (opencv := sampleOpenCV) (fl 1) true alignedTwoLandmarks noRects)
    as [Hreturns Hthrees].
  - vm_compute. reflexivity.
  - vm_compute. repeat constructor.
  - destruct Hreturns as [out Hrun]; [right; vm_compute; lia|].
    destruct (Hthrees out [] Hrun) as (triangles & k & Hstored & Hlen).
    exists out, triangles, k. auto.
Defined.

(** ** Comparisons of binary64 numbers *)















(** ** Compositing ([DelaunayTransform::project], lines 223-269) *)

Lemma triangles_ind {A : Type} (P : list A -> Prop) :
  P [] -> (forall a, P [a]) -> (forall a b, P [a; b]) ->
  (forall a b c rest, P rest -> P (a :: b :: c :: rest)) ->
  forall l, P l.
Proof.
  intros H0 H1 H2 H3. fix IH 1.
  intros [|a [|b [|c rest]]]; [exact H0 | apply H1 | apply H2 | apply H3, IH].
Qed.

Lemma matOf_lookup (rows cols : Z) (pixel : nat -> Z) (i : nat) :
  i < Z.to_nat (rows * cols) ->
  mat_data (matOf rows cols pixel) !! i = Some (pixel i).
Proof.
  intros Hi. unfold matOf. simpl.
  rewrite list_lookup_fmap, lookup_seq_lt by assumption. reflexivity.
Qed.

Lemma matOf_length (rows cols : Z) (pixel : nat -> Z) :
  length (mat_data (matOf rows cols pixel)) = Z.to_nat (rows * cols).
Proof. unfold matOf. simpl. rewrite length_map, length_seq. reflexivity. Qed.

Lemma land_255_range (b : Z) : (0 <= Z.land b 255 <= 255)%Z.
Proof.
  change 255%Z with (Z.ones 8). rewrite Z.land_ones by lia.
  change (2 ^ 8)%Z with 256%Z.
  pose proof (Z.mod_pos_bound b 256 eq_refl) as Hb. change (Z.ones 8) with 255%Z. lia.
Qed.

Lemma land_255_small (d : Z) : (0 <= d <= 255)%Z -> Z.land d 255 = d.
Proof.
  intros Hd. change 255%Z with (Z.ones 8). rewrite Z.land_ones by lia.
  change (2 ^ 8)%Z with 256%Z. apply Z.mod_small. lia.
Qed.

(** One pixel of [composite]. *)
Lemma composite_lookup (first : bool) (acc buffer mask : Mat) (i : nat) (d b k : Z) :
  mat_data acc !! i = Some d ->
  mat_data buffer !! i = Some b ->
  mat_data mask !! i = Some k ->
  mat_data (DelaunayTransform.composite first acc buffer mask) !! i
  = Some (saturate_uchar
            (d + Z.land b (if first then k
                           else if ((if (Z.land d k =? 0)%Z then 0 else 255) =? 0)%Z
                                then k else 0)))%Z.
Proof.
  intros Hd Hb Hk.
  unfold DelaunayTransform.composite, addTo, bitwise_and, setToZero, nonZero, pointwise.
  destruct first; simpl;
    repeat (rewrite lookup_zip_with || rewrite list_lookup_fmap);
    rewrite ?Hd, ?Hb, ?Hk; reflexivity.
Qed.

Lemma composite_length (first : bool) (acc buffer mask : Mat) (n : nat) :
  length (mat_data acc) = n -> length (mat_data buffer) = n ->
  length (mat_data mask) = n ->
  length (mat_data (DelaunayTransform.composite first acc buffer mask)) = n.
Proof.
  intros Ha Hb Hm.
  unfold DelaunayTransform.composite, addTo, bitwise_and, setToZero, nonZero, pointwise.
  destruct first; simpl;
    repeat (rewrite length_zip_with || rewrite length_map); lia.
Qed.

(** The value of that pixel: an accumulated pixel that is not zero stays,
    a zero one takes the masked pixel of the buffer. *)
Lemma composite_pixel (first : bool) (d b k : Z) :
  (0 <= d <= 255)%Z -> k = 0%Z \/ k = 255%Z -> (first = true -> d = 0%Z) ->
  saturate_uchar
    (d + Z.land b (if first then k
                   else if ((if (Z.land d k =? 0)%Z then 0 else 255) =? 0)%Z
                        then k else 0))%Z
  = (if (d =? 0)%Z then Z.land b k else d)
  /\ (0 <= (if (d =? 0)%Z then Z.land b k else d) <= 255)%Z.
Proof.
  intros Hd Hk Hfirst.
  assert (Hv : (0 <= Z.land b k <= 255)%Z).
  { destruct Hk as [-> | ->]; [rewrite Z.land_0_r; lia | apply land_255_range]. }
  unfold saturate_uchar.
  destruct (Z.eqb_spec d 0) as [-> | Hnz].
  - rewrite Z.land_0_l. simpl. destruct first; split; lia.
  - destruct first; [specialize (Hfirst eq_refl); contradiction|].
    destruct Hk as [-> | ->].
    + rewrite Z.land_0_r. simpl. rewrite Z.land_0_r. split; lia.
    + rewrite (land_255_small d Hd).
      destruct (Z.eqb_spec d 0); [contradiction|]. simpl.
      rewrite Z.land_0_r. split; lia.
Qed.

Section CompositingFacts.
Context {F : Type} {num : Scalar F} {opencv : OpenCVLib F}.
Variables (image : Mat) (R : Matrix2 F) (mean0 mean1 norm scaleFactor : F).
Variables (cols rows : Z).

Local Abbreviation run :=
  (DelaunayTransform.warpTriangles image R mean0 mean1 norm scaleFactor cols rows).
Local Abbreviation value :=
  (triangleValue image R mean0 mean1 norm scaleFactor cols rows).
Local Abbreviation first_value :=
  (firstValue image R mean0 mean1 norm scaleFactor cols rows).
Local Abbreviation size := (Z.to_nat (rows * cols)).
Local Abbreviation pixels acc := (Forall (fun d => 0 <= d <= 255)%Z (mat_data acc)).

Lemma nthTriangle_0 (a b c : Point F) (rest : list (Point F)) :
  nthTriangle (a :: b :: c :: rest) 0 = Some (a, b, c).
Proof. reflexivity. Qed.

Lemma nthTriangle_S (a b c : Point F) (rest : list (Point F)) (k : nat) :
  nthTriangle (a :: b :: c :: rest) (S k) = nthTriangle rest k.
Proof.
  unfold nthTriangle.
  replace (3 * S k) with (S (S (S (3 * k)))) by lia. reflexivity.
Qed.

Lemma run_Some_length (triangles : list (Point F)) :
  forall first acc mapped out mapped',
    run first triangles acc mapped = Some (out, mapped') ->
    exists k, length triangles = 3 * k.
Proof.
  induction triangles as [|a|a b|a b c rest IH] using triangles_ind;
    intros first acc mapped out mapped' Hrun; simpl in Hrun; try discriminate.
  - exists 0. reflexivity.
  - destruct (IH _ _ _ _ _ Hrun) as [k Hk]. exists (S k). simpl. lia.
Qed.

Lemma first_value_app (triangles more : list (Point F)) (i : nat) (k : nat) :
  length triangles = 3 * k ->
  first_value (triangles ++ more) i
  = if (first_value triangles i =? 0)%Z then first_value more i
    else first_value triangles i.
Proof.
  revert k.
  induction triangles as [|a|a b|a b c rest IH] using triangles_ind;
    intros k Hlen; simpl in Hlen; try lia.
  - simpl. destruct more as [|x [|y [|z more]]]; reflexivity.
  - simpl. destruct (value (a, b, c) i =? 0)%Z eqn:Hv.
    + apply (IH (k - 1)). lia.
    + rewrite Hv. reflexivity.
Qed.

Lemma first_value_source (triangles : list (Point F)) (i : nat) :
  first_value triangles i <> 0%Z ->
  exists k t,
    nthTriangle triangles k = Some t
    /\ first_value triangles i = value t i
    /\ forall j t', j < k -> nthTriangle triangles j = Some t' -> value t' i = 0%Z.
Proof.
  induction triangles as [|a|a b|a b c rest IH] using triangles_ind;
    simpl; try congruence.
  destruct (Z.eqb_spec (value (a, b, c) i) 0) as [Hz | Hnz]; intros Hv.
  - destruct (IH Hv) as (k & t & Hk & Heq & Hbefore).
    exists (S k), t. rewrite nthTriangle_S.
    split; [exact Hk|]. split; [exact Heq|].
    intros [|j] t' Hj Ht'.
    + rewrite nthTriangle_0 in Ht'. injection Ht' as <-. exact Hz.
    + rewrite nthTriangle_S in Ht'. apply (Hbefore j t'); [lia | exact Ht'].
  - exists 0, (a, b, c). split; [apply nthTriangle_0|]. split; [reflexivity|].
    intros j t' Hj. lia.
Qed.

(** The loop, pixel by pixel: a pixel that was not zero keeps its value,
    a zero pixel ends as the first non-zero value drawn there. *)
Lemma run_pixels (triangles : list (Point F)) :
  forall first acc mapped out mapped',
    length (mat_data acc) = size -> pixels acc ->
    (first = true -> Forall (fun d => d = 0%Z) (mat_data acc)) ->
    run first triangles acc mapped = Some (out, mapped') ->
    length (mat_data out) = size /\ pixels out
    /\ forall i d, mat_data acc !! i = Some d ->
                   mat_data out !! i
                   = Some (if (d =? 0)%Z then first_value triangles i else d).
Proof.
  induction triangles as [|a|a b|a b c rest IH] using triangles_ind;
    intros first acc mapped out mapped' Hlen Hpix Hfirst Hrun;
    simpl in Hrun; try discriminate.
  - injection Hrun as <- <-. split; [exact Hlen|]. split; [exact Hpix|].
    intros i d Hd. rewrite Hd. simpl. destruct (Z.eqb_spec d 0); congruence.
  - set (w := DelaunayTransform.warpedPoint R mean0 mean1 norm scaleFactor cols rows) in *.
    set (buffer := DelaunayTransform.triangleBuffer
                     image cols rows (toPoint a, toPoint b, toPoint c) (w a, w b, w c)) in *.
    set (mask := DelaunayTransform.triangleMask cols rows (w a, w b, w c)) in *.
    set (acc' := DelaunayTransform.composite first acc buffer mask) in *.
    assert (Hstep : forall i d, mat_data acc !! i = Some d ->
               mat_data acc' !! i
               = Some (if (d =? 0)%Z then value (a, b, c) i else d)
               /\ (0 <= (if (d =? 0)%Z then value (a, b, c) i else d) <= 255)%Z).
    { intros i d Hd.
      assert (Hi : i < size) by (rewrite <- Hlen; eapply lookup_lt_Some; exact Hd).
      assert (Hrange : (0 <= d <= 255)%Z).
      { rewrite Forall_lookup in Hpix. exact (Hpix i d Hd). }
      assert (Hzero : first = true -> d = 0%Z).
      { intros Hf. specialize (Hfirst Hf). rewrite Forall_lookup in Hfirst.
        exact (Hfirst i d Hd). }
      unfold acc'.
      rewrite (composite_lookup first acc buffer mask i d _ _ Hd
                 (matOf_lookup rows cols _ i Hi) (matOf_lookup rows cols _ i Hi)).
      destruct (composite_pixel first d
                  (warpAffine image (toPoint a, toPoint b, toPoint c) (w a, w b, w c)
                              cols rows i)
                  (if fillConvexPoly (w a, w b, w c) rows cols i then 255 else 0)%Z
                  Hrange) as [Heq Hbound].
      { destruct (fillConvexPoly _ _ _ _); auto. }
      { exact Hzero. }
      rewrite Heq. split; [reflexivity | exact Hbound]. }
    assert (Hlen' : length (mat_data acc') = size).
    { apply composite_length; [exact Hlen | apply matOf_length | apply matOf_length]. }
    assert (Hpix' : pixels acc').
    { apply Forall_lookup. intros i x Hx.
      assert (Hi : i < length (mat_data acc)).
      { rewrite Hlen, <- Hlen'. eapply lookup_lt_Some; exact Hx. }
      destruct (lookup_lt_is_Some_2 _ _ Hi) as [d Hd].
      destruct (Hstep i d Hd) as [Hacc' Hbound].
      rewrite Hacc' in Hx. injection Hx as <-. exact Hbound. }
    destruct (IH false acc' (mapped ++ [w a; w b; w c]) out mapped' Hlen' Hpix')
      as (Hout & Hpixout & Hfinal);
      [discriminate | exact Hrun |].
    split; [exact Hout|]. split; [exact Hpixout|].
    intros i d Hd. destruct (Hstep i d Hd) as [Hacc' _].
    rewrite (Hfinal i _ Hacc'). simpl.
    destruct (Z.eqb_spec d 0) as [-> | Hnz].
    + destruct (value (a, b, c) i =? 0)%Z; reflexivity.
    + destruct (Z.eqb_spec d 0); [contradiction | reflexivity].
Qed.

(** The image the warp leaves: every pixel is the first non-zero value a
    triangle of the list draws there, zero when no triangle draws one. *)
Lemma warp_pixels (triangles : list (Point F)) (out : Mat) (mapped : list (Point F)) :
  run true triangles (zeros rows cols) [] = Some (out, mapped) ->
  length (mat_data out) = size
  /\ forall i, i < size -> mat_data out !! i = Some (first_value triangles i).
Proof.
  intros Hrun.
  assert (Hzeros : Forall (fun d => d = 0%Z) (mat_data (zeros rows cols))).
  { apply Forall_lookup. intros i x Hx.
    assert (Hi : i < size).
    { rewrite <- (matOf_length rows cols (fun _ => 0%Z)). eapply lookup_lt_Some; exact Hx. }
    unfold zeros in Hx. rewrite (matOf_lookup rows cols _ i Hi) in Hx. congruence. }
  destruct (run_pixels triangles true (zeros rows cols) [] out mapped) as (Hlen & _ & Hfinal).
  - apply matOf_length.
  - eapply Forall_impl; [exact Hzeros|]. simpl. intros d ->. lia.
  - intros _. exact Hzeros.
  - exact Hrun.
  - split; [exact Hlen|]. intros i Hi.
    rewrite (Hfinal i 0%Z); [reflexivity|].
    unfold zeros. apply matOf_lookup. exact Hi.
Qed.

(** C2.  After the warp has composited the triangles in list order:
    (1) every non-zero pixel of the output is the value drawn by exactly
    one triangle, the first of the list that draws a non-zero value there
    (every earlier triangle drew zero at that pixel);
    (2) triangles that come later never overwrite it: the output of the
    warp over a longer list agrees with it on every non-zero pixel;
    (3) in one step after the first, a pixel of the mask is put to zero
    where the accumulated pixel is not zero, so that the accumulated pixel
    stays as it is and is never a blend;
    (4) the loop runs to its end on every list the bounds filter makes. *)
Theorem warp_first_writer_wins :
  (forall (triangles : list (Point F)) out mapped,
      run true triangles (zeros rows cols) [] = Some (out, mapped) ->
      forall i v,
        mat_data out !! i = Some v -> v <> 0%Z ->
        exists k t,
          nthTriangle triangles k = Some t
          /\ v = value t i
          /\ forall j t', j < k -> nthTriangle triangles j = Some t' -> value t' i = 0%Z)
  /\ (forall (triangles more : list (Point F)) out mapped out' mapped',
         run true triangles (zeros rows cols) [] = Some (out, mapped) ->
         run true (triangles ++ more) (zeros rows cols) [] = Some (out', mapped') ->
         forall i v,
           mat_data out !! i = Some v -> v <> 0%Z -> mat_data out' !! i = Some v)
  /\ (forall (acc buffer mask : Mat) i d b k,
         mat_data acc !! i = Some d ->
         mat_data buffer !! i = Some b ->
         mat_data mask !! i = Some k ->
         (0 < d <= 255)%Z -> k = 0%Z \/ k = 255%Z ->
         mat_data (setToZero mask (nonZero (bitwise_and acc mask))) !! i = Some 0%Z
         /\ mat_data (DelaunayTransform.composite false acc buffer mask) !! i = Some d)
  /\ (forall (width height : Z) (triangleList : list (Vec6f F)),
         exists out mapped,
           run true (DelaunayTransform.validTriangles width height triangleList)
               (zeros rows cols) [] = Some (out, mapped)).
Proof.
  split; [|split; [|split]]; cycle 3.
  - intros width height triangleList.
    destruct (validTriangles_length width height triangleList) as [k Hk].
    destruct (warpTriangles_is_Some image R mean0 mean1 norm scaleFactor cols rows k
                _ true (zeros rows cols) [] Hk) as [[out mapped] Hrun].
    exists out, mapped. exact Hrun.
  - intros triangles out mapped Hrun i v Hv Hnz.
    destruct (warp_pixels triangles out mapped Hrun) as [Hlen Hfinal].
    assert (Hi : i < size) by (rewrite <- Hlen; eapply lookup_lt_Some; exact Hv).
    rewrite (Hfinal i Hi) in Hv. injection Hv as <-.
    destruct (first_value_source triangles i Hnz) as (k & t & Hk & Heq & Hbefore).
    exists k, t. auto.
  - intros triangles more out mapped out' mapped' Hrun Hrun' i v Hv Hnz.
    destruct (warp_pixels triangles out mapped Hrun) as [Hlen Hfinal].
    destruct (warp_pixels (triangles ++ more) out' mapped' Hrun') as [Hlen' Hfinal'].
    assert (Hi : i < size) by (rewrite <- Hlen; eapply lookup_lt_Some; exact Hv).
    rewrite (Hfinal i Hi) in Hv. injection Hv as <-.
    rewrite (Hfinal' i Hi).
    destruct (run_Some_length triangles _ _ _ _ _ Hrun) as [k Hk].
    rewrite (first_value_app triangles more i k Hk).
    destruct (Z.eqb_spec (first_value triangles i) 0); [contradiction | reflexivity].
  - intros acc buffer mask i d b k Hd Hb Hk Hrange Hmask.
    split.
    + unfold setToZero, nonZero, bitwise_and, pointwise. simpl.
      repeat (rewrite lookup_zip_with || rewrite list_lookup_fmap).
      rewrite Hd, Hk. simpl.
      destruct Hmask as [-> | ->].
      * rewrite Z.land_0_r. reflexivity.
      * rewrite land_255_small by lia.
        destruct (Z.eqb_spec d 0); [lia | reflexivity].
    + rewrite (composite_lookup false acc buffer mask i d b k Hd Hb Hk).
      destruct (composite_pixel false d b k) as [Heq _];
        [lia | exact Hmask | discriminate |].
      rewrite Heq. destruct (Z.eqb_spec d 0); [lia | reflexivity].
Qed.
End CompositingFacts.

Lemma warp_first_writer_wins_witness :
  exists k t,
    nthTriangle sampleTriangles k = Some t
    /\ 5%Z = triangleValue (opencv := sampleOpenCV) (m twoLandmarks)
                           (mkMatrix2 (fl 1) (fl 0) (fl 0) (fl 1))
                           (fl 0) (fl 0) (fl 1) (fl 1) 4 4 t 5
    /\ forall j t',
        j < k -> nthTriangle sampleTriangles j = Some t' ->
        triangleValue (opencv := sampleOpenCV) (m twoLandmarks)
                      (mkMatrix2 (fl 1) (fl 0) (fl 0) (fl 1))
                      (fl 0) (fl 0) (fl 1) (fl 1) 4 4 t' 5 = 0%Z.
Proof.
  destruct (warp_first_writer_wins
              (opencv := sampleOpenCV) (m twoLandmarks)
              (mkMatrix2 (fl 1) (fl 0) (fl 0) (fl 1))
              (fl 0) (fl 0) (fl 1) (fl 1) 4 4) as [Hsource _].
  eapply (Hsource sampleTriangles _ _).
  - vm_compute. reflexivity.
  - vm_compute. reflexivity.
  - discriminate.
Defined.

Lemma squareR_norm_not_zero : shapeNorm (fullPoints squareR) <> 0%R.
Proof.
  rewrite shapeNorm_R. unfold cv_norm.
  apply Rgt_not_eq, Rlt_gt. apply sqrt_lt_R0.
  unfold sumSquares, centerAt, cv_mean, sumPoints. simpl.
  change (Z.of_nat 5) with 5%Z. lra.
Qed.

Lemma normalized_shape_centroid_and_norm_witness :
  cv_mean (toPoints (normalizeShape (fullPoints squareR))) = (0%R, 0%R)
  /\ cv_norm (toPoints (normalizeShape (fullPoints squareR))) = 1%R.
Proof.
  apply (normalized_shape_centroid_and_norm (fullPoints squareR)).
  exact squareR_norm_not_zero.
Defined.

(** Over the real numbers the four comparisons of the bounds test, all
    false, are the inequalities 0 <= x < width and 0 <= y < height. *)
Lemma bounds_test_R (cols rows : Z) (v : Point R) :
  (fltb (pt_x v) f0 = false /\ fleb (of_Z cols) (pt_x v) = false
   /\ fltb (pt_y v) f0 = false /\ fleb (of_Z rows) (pt_y v) = false)
  <-> (0 <= pt_x v < IZR cols /\ 0 <= pt_y v < IZR rows)%R.
Proof.
  simpl.
  destruct (Rlt_dec (pt_x v) 0), (Rle_dec (IZR cols) (pt_x v)),
    (Rlt_dec (pt_y v) 0), (Rle_dec (IZR rows) (pt_y v));
    split; intros Hb;
    try (destruct Hb as (? & ? & ? & ?); discriminate);
    try (exfalso; lra);
    try (repeat split; reflexivity);
    try (repeat split; lra).
Qed.

(** * Further properties of the transforms *)

(** ** Triangulation and warp: what the output record is made of *)

Section WarpRecordFacts.
Context {F : Type} {num : Scalar F} {opencv : OpenCVLib F}.

Lemma warpTriangles_shape (image : Mat) (R : Matrix2 F)
      (mean0 mean1 norm scaleFactor : F) (cols rows : Z) (triangles : list (Point F)) :
  forall first acc mapped out mapped',
    DelaunayTransform.warpTriangles image R mean0 mean1 norm scaleFactor cols rows
                                    first triangles acc mapped = Some (out, mapped') ->
    mat_rows out = mat_rows acc /\ mat_cols out = mat_cols acc
    /\ length mapped' = length mapped + length triangles.
Proof.
  induction triangles as [|a|a b|a b c rest IH] using triangles_ind;
    intros first acc mapped out mapped' Hrun; simpl in Hrun; try discriminate.
  - injection Hrun as <- <-. simpl. auto with lia.
  - destruct (IH _ _ _ _ _ Hrun) as (Hr & Hc & Hl).
    rewrite Hr, Hc, Hl, length_app. simpl. auto with lia.
Qed.

(** The warp branch of [project], once the seven statistics are read. *)
Lemma project_warp_run (scaleFactor : F) (src dst : Template F)
      (r00 r10 r11 r01 mean0 mean1 norm : F) (rest : list F)
      (image : Mat) (mapped : list (Point F)) :
  usable src = true ->
  Forall (fun p => DelaunayTransform.outOfBounds (mat_cols (m src)) (mat_rows (m src)) p
                   = false) (fullPoints src) ->
  getFloats "ProcrustesStats" (file src)
  = r00 :: r10 :: r11 :: r01 :: mean0 :: mean1 :: norm :: rest ->
  let cols := mat_cols (m src) in
  let rows := mat_rows (m src) in
  let triangles :=
    DelaunayTransform.validTriangles
      cols rows (getTriangleList (insertAll (fullPoints src) (subdiv_new cols rows))) in
  DelaunayTransform.warpTriangles (m src) (mkMatrix2 r00 r01 r10 r11) mean0 mean1 norm
                                  scaleFactor cols rows true triangles (zeros rows cols) []
  = Some (image, mapped) ->
  DelaunayTransform.project scaleFactor true src dst
  = Done (DelaunayTransform.storeTriangles
            triangles (mkTemplate (setRects [boundingRect mapped] (file dst)) image)) [].
Proof.
  intros Hu Hall Hstats cols rows triangles Hrun.
  unfold usable in Hu. apply negb_true_iff in Hu.
  unfold DelaunayTransform.project. rewrite Hu.
  fold (fullPoints src). fold cols. fold rows.
  rewrite (insertPoints_Some cols rows (fullPoints src) Hall). fold triangles.
  rewrite Hstats, Hrun. reflexivity.
Qed.

(** X1.  With warp off, triangulation of a record whose points all pass
    the bounds test changes nothing but the key "DelaunayTriangles": the
    image, the points, the rects and every other key are those of the
    input, whatever [dst] and [scaleFactor] are. *)
Theorem triangulation_without_warp_frame
        (scaleFactor : F) (src dst : Template F) :
  usable src = true ->
  Forall (fun p => DelaunayTransform.outOfBounds (mat_cols (m src)) (mat_rows (m src)) p
                   = false) (fullPoints src) ->
  exists out triangles,
    DelaunayTransform.project scaleFactor false src dst = Done out []
    /\ m out = m src
    /\ file_points (file out) = file_points (file src)
    /\ file_rects (file out) = file_rects (file src)
    /\ file_metadata (file out) !! "DelaunayTriangles" = Some (VPoints triangles)
    /\ (forall key, key <> "DelaunayTriangles" ->
                    file_metadata (file out) !! key = file_metadata (file src) !! key).
Proof.
  intros Hu Hall.
  destruct (project_accepted scaleFactor false src dst Hu Hall) as (Hoff & _ & _).
  rewrite (Hoff eq_refl). eexists _, _. split; [reflexivity|]. simpl.
  repeat split.
  - apply lookup_insert_eq.
  - intros key Hk. rewrite lookup_insert_ne by congruence. reflexivity.
Qed.

(** X2.  With warp on (and the seven statistics present), the record
    [project] returns is built on the [dst] passed in, not on [src]: its
    points and every key other than "DelaunayTriangles" are those of [dst].
    It has exactly one rect.  Its image has the rows and columns of the
    source image, rows*cols pixels, each between 0 and 255. *)
Theorem warp_output_frame (scaleFactor : F) (src dst : Template F) :
  usable src = true ->
  Forall (fun p => DelaunayTransform.outOfBounds (mat_cols (m src)) (mat_rows (m src)) p
                   = false) (fullPoints src) ->
  7 <= length (getFloats "ProcrustesStats" (file src)) ->
  exists out r,
    DelaunayTransform.project scaleFactor true src dst = Done out []
    /\ file_points (file out) = file_points (file dst)
    /\ file_rects (file out) = [r]
    /\ (forall key, key <> "DelaunayTriangles" ->
                    file_metadata (file out) !! key = file_metadata (file dst) !! key)
    /\ mat_rows (m out) = mat_rows (m src)
    /\ mat_cols (m out) = mat_cols (m src)
    /\ length (mat_data (m out)) = Z.to_nat (mat_rows (m src) * mat_cols (m src))
    /\ Forall (fun v => 0 <= v <= 255)%Z (mat_data (m out)).
Proof.
  intros Hu Hall Hstats.
  destruct (getFloats "ProcrustesStats" (file src))
    as [|r00 [|r10 [|r11 [|r01 [|mean0 [|mean1 [|norm rest]]]]]]] eqn:Hget;
    try (simpl in Hstats; lia).
  set (cols := mat_cols (m src)). set (rows := mat_rows (m src)).
  set (triangles :=
         DelaunayTransform.validTriangles
           cols rows (getTriangleList (insertAll (fullPoints src) (subdiv_new cols rows)))).
  destruct (validTriangles_length cols rows
              (getTriangleList (insertAll (fullPoints src) (subdiv_new cols rows))))
    as [k Hk]. fold triangles in Hk.
  destruct (warpTriangles_is_Some (m src) (mkMatrix2 r00 r01 r10 r11)
              mean0 mean1 norm scaleFactor cols rows k triangles true
              (zeros rows cols) [] Hk) as [[image mapped] Hrun].
  rewrite (project_warp_run scaleFactor src dst _ _ _ _ _ _ _ _ image mapped
             Hu Hall Hget Hrun).
  destruct (warpTriangles_shape _ _ _ _ _ _ _ _ _ _ _ _ _ _ Hrun) as (Hr & Hc & _).
  destruct (warp_pixels _ _ _ _ _ _ _ _ _ _ _ Hrun) as [Hlen _].
  destruct (run_pixels (m src) (mkMatrix2 r00 r01 r10 r11) mean0 mean1 norm scaleFactor
              cols rows triangles true (zeros rows cols) [] image mapped)
    as (_ & Hpix & _).
  { apply matOf_length. }
  { apply Forall_lookup. intros i x Hx.
    assert (Hi : i < Z.to_nat (rows * cols)).
    { rewrite <- (matOf_length rows cols (fun _ => 0%Z)). eapply lookup_lt_Some; exact Hx. }
    unfold zeros in Hx. rewrite (matOf_lookup rows cols _ i Hi) in Hx.
    injection Hx as <-. lia. }
  { intros _. apply Forall_lookup. intros i x Hx.
    assert (Hi : i < Z.to_nat (rows * cols)).
    { rewrite <- (matOf_length rows cols (fun _ => 0%Z)). eapply lookup_lt_Some; exact Hx. }
    unfold zeros in Hx. rewrite (matOf_lookup rows cols _ i Hi) in Hx. congruence. }
  { exact Hrun. }
  eexists _, _. split; [reflexivity|]. simpl.
  repeat split; try assumption.
  intros key Hkey. rewrite lookup_insert_ne by congruence. reflexivity.
Qed.


(** X4.  The warp paints nothing outside the masks: a pixel that the mask
    of no triangle of the list covers is zero in the output image. *)
Theorem uncovered_pixel_stays_zero
        (image : Mat) (R : Matrix2 F) (mean0 mean1 norm scaleFactor : F)
        (cols rows : Z) (triangles : list (Point F)) (out : Mat)
        (mapped : list (Point F)) (i : nat) :
  let w := DelaunayTransform.warpedPoint R mean0 mean1 norm scaleFactor cols rows in
  DelaunayTransform.warpTriangles image R mean0 mean1 norm scaleFactor cols rows
                                  true triangles (zeros rows cols) [] = Some (out, mapped) ->
  i < Z.to_nat (rows * cols) ->
  (forall k a b c,
      nthTriangle triangles k = Some (a, b, c) ->
      fillConvexPoly (w a, w b, w c) rows cols i = false) ->
  mat_data out !! i = Some 0%Z.
Proof.
  intros w Hrun Hi Hmask.
  destruct (warp_pixels _ _ _ _ _ _ _ _ _ _ _ Hrun) as [_ Hfinal].
  rewrite (Hfinal i Hi). f_equal.
  destruct (Z.eq_dec (firstValue image R mean0 mean1 norm scaleFactor cols rows
                                 triangles i) 0) as [Hz | Hnz]; [exact Hz|].
  destruct (first_value_source _ _ _ _ _ _ _ _ _ _ Hnz)
    as (k & [[a b] c] & Hk & Heq & _).
  rewrite Heq. unfold triangleValue. fold w.
  rewrite (Hmask k a b c Hk). apply Z.land_0_r.
Qed.
End WarpRecordFacts.

Lemma triangulation_without_warp_frame_witness :
  exists out triangles,
    DelaunayTransform.project (opencv := sampleOpenCV) (fl 1) false twoLandmarks noRects
    = Done out []
    /\ m out = m twoLandmarks
    /\ file_points (file out) = file_points (file twoLandmarks)
    /\ file_rects (file out) = file_rects (file twoLandmarks)
    /\ file_metadata (file out) !! "DelaunayTriangles" = Some (VPoints triangles).
Proof.
  destruct (triangulation_without_warp_frame
              (opencv := sampleOpenCV) (fl 1) twoLandmarks noRects)
    as (out & triangles & Hrun & Hm & Hp & Hr & Ht & _).
  - vm_compute. reflexivity.
  - vm_compute. repeat constructor.
  - exists out, triangles. auto.
Defined.

Lemma warp_output_frame_witness :
  exists out r,
    DelaunayTransform.project (opencv := sampleOpenCV) (fl 1) true
                              alignedTwoLandmarks noRects = Done out []
    /\ file_points (file out) = [Pt (fl 1) (fl 1)]
    /\ file_rects (file out) = [r]
    /\ file_metadata (file out) !! "ProcrustesStats" = None
    /\ length (mat_data (m out)) = 16.
Proof.
  destruct (warp_output_frame (opencv := sampleOpenCV) (fl 1) alignedTwoLandmarks noRects)
    as (out & r & Hrun & Hp & Hr & Hkeys & _ & _ & Hlen & _).
  - vm_compute. reflexivity.
  - vm_compute. repeat constructor.
  - vm_compute. lia.
  - exists out, r. split; [exact Hrun|]. split; [exact Hp|]. split; [exact Hr|].
    split; [rewrite Hkeys by discriminate; reflexivity | exact Hlen].
Defined.


Lemma uncovered_pixel_stays_zero_witness :
  exists out mapped,
    DelaunayTransform.warpTriangles
      (opencv := halfMaskOpenCV) (m twoLandmarks)
      (mkMatrix2 (fl 1) (fl 0) (fl 0) (fl 1)) (fl 0) (fl 0) (fl 1) (fl 1) 4 4
      true sampleTriangles (zeros 4 4) [] = Some (out, mapped)
    /\ mat_data out !! 5 = Some 5%Z
    /\ mat_data out !! 12 = Some 0%Z.
Proof.
  eexists _, _. split; [vm_compute; reflexivity|].
  split; [vm_compute; reflexivity|].
  eapply (uncovered_pixel_stays_zero
            (opencv := halfMaskOpenCV) (m twoLandmarks)
            (mkMatrix2 (fl 1) (fl 0) (fl 0) (fl 1)) (fl 0) (fl 0) (fl 1) (fl 1) 4 4
            sampleTriangles).
  - vm_compute. reflexivity.
  - vm_compute. lia.
  - intros k a b c _. reflexivity.
Defined.

(** ** Alignment followed by triangulation *)

Section PipelineFacts.
Context {F : Type} {num : Scalar F} {eigen : EigenLib F} {opencv : OpenCVLib F}.

End PipelineFacts.


(** ** Rendering ([DrawDelaunayTransform::project]) *)

Section RenderingFacts.
Context {F : Type} {num : Scalar F} {opencv : OpenCVLib F} {draw : OpenCVDraw F}.

Lemma drawTriangles_is_Some (triangles : list (Point F)) :
  forall image,
    is_Some (DrawDelaunayTransform.drawTriangles triangles image)
    <-> exists k, length triangles = 3 * k.
Proof.
  induction triangles as [|a|a b|a b c rest IH] using triangles_ind; intros image; simpl.
  - split; [exists 0; reflexivity | eexists; reflexivity].
  - split; [intros [x Hx]; discriminate | intros [k Hk]; simpl in Hk; lia].
  - split; [intros [x Hx]; discriminate | intros [k Hk]; simpl in Hk; lia].
  - rewrite IH. split; intros [k Hk].
    + exists (S k). simpl. lia.
    + exists (k - 1). simpl in Hk. lia.
Qed.

(** X6.  The renderer returns a record exactly when the list under
    "DelaunayTriangles" is made of whole triangles (its length is a multiple
    of three); otherwise an index runs past the end of the list.  The
    record it returns is the [dst] passed in with a new image: no warning,
    file untouched. *)
Theorem rendering_needs_whole_triangles (src dst : Template F) (stored : list (Point F)) :
  file_metadata (file src) !! "DelaunayTriangles" = Some (VPoints stored) ->
  ((exists out warnings, DrawDelaunayTransform.project src dst = Done out warnings)
   <-> exists k, length stored = 3 * k)
  /\ ((forall k, length stored <> 3 * k) ->
      DrawDelaunayTransform.project src dst = IndexOutOfRange)
  /\ (forall out warnings,
         DrawDelaunayTransform.project src dst = Done out warnings ->
         warnings = [] /\ file out = file dst).
Proof.
  intros Hstored.
  unfold DrawDelaunayTransform.project, DrawDelaunayTransform.getPoints.
  rewrite Hstored.
  pose proof (drawTriangles_is_Some (toPoints stored) (m src)) as Hiff.
  unfold toPoints in Hiff at 2. rewrite length_map in Hiff.
  destruct (DrawDelaunayTransform.drawTriangles (toPoints stored) (m src)) as [image|].
  - split; [|split].
    + split; [intros _; apply Hiff; eexists; reflexivity |].
      intros _. eexists _, _. reflexivity.
    + intros Hnot. destruct Hiff as [Hk _].
      destruct Hk as [k Hk]; [eexists; reflexivity|]. destruct (Hnot k Hk).
    + intros out warnings Hrun. injection Hrun as <- <-. auto.
  - split; [|split].
    + split; [intros (out & warnings & Hrun); discriminate|].
      intros Hk. apply Hiff in Hk. destruct Hk as [x Hx]. discriminate.
    + reflexivity.
    + intros out warnings Hrun. discriminate.
Qed.

(** X7.  The renderer never runs past the end of a list the triangulation
    stored: on every record that [DelaunayTransform::project] returns for a
    source whose points all pass the bounds test (warp on or off), the
    renderer returns a record. *)
Theorem rendering_after_triangulation
        (scaleFactor : F) (warp : bool) (src dst triangulated dst' : Template F)
        (warnings : list string) :
  usable src = true ->
  Forall (fun p => DelaunayTransform.outOfBounds (mat_cols (m src)) (mat_rows (m src)) p
                   = false) (fullPoints src) ->
  DelaunayTransform.project scaleFactor warp src dst = Done triangulated warnings ->
  exists image,
    DrawDelaunayTransform.project triangulated dst'
    = Done (mkTemplate (file dst') image) [].
Proof.
  intros Hu Hall Hrun.
  destruct (project_accepted scaleFactor warp src dst Hu Hall) as (_ & _ & Hany).
  destruct (Hany triangulated warnings Hrun) as [_ Hstored].
  unfold DrawDelaunayTransform.project, DrawDelaunayTransform.getPoints.
  rewrite Hstored.
  destruct (validTriangles_length (mat_cols (m src)) (mat_rows (m src))
              (getTriangleList (insertAll (fullPoints src)
                                 (subdiv_new (mat_cols (m src)) (mat_rows (m src))))))
    as [k Hk].
  destruct (proj2 (drawTriangles_is_Some
                     (toPoints (DelaunayTransform.validTriangles
                                  (mat_cols (m src)) (mat_rows (m src))
                                  (getTriangleList
                                     (insertAll (fullPoints src)
                                        (subdiv_new (mat_cols (m src))
                                                    (mat_rows (m src)))))))
                     (m triangulated))) as [image Himage].
  { exists k. unfold toPoints. rewrite length_map. exact Hk. }
  rewrite Himage. exists image. reflexivity.
Qed.
End RenderingFacts.

Lemma rendering_needs_whole_triangles_witness :
  exists out,
    DrawDelaunayTransform.project
      (draw := countingDraw)
      (DelaunayTransform.storeTriangles sampleTriangles twoLandmarks) noRects
    = Done out []
    /\ file out = file noRects.
Proof.
  destruct (rendering_needs_whole_triangles
              (draw := countingDraw)
              (DelaunayTransform.storeTriangles sampleTriangles twoLandmarks) noRects
              sampleTriangles) as (Hiff & _ & Hframe).
  - vm_compute. reflexivity.
  - destruct (proj2 Hiff) as (out & warnings & Hrun).
    + exists 4. vm_compute. reflexivity.
    + destruct (Hframe out warnings Hrun) as [-> Hfile].
      exists out. split; assumption.
Defined.

Lemma rendering_after_triangulation_witness :
  exists image,
    DrawDelaunayTransform.project
      (draw := countingDraw)
      (DelaunayTransform.storeTriangles sampleTriangles twoLandmarks) oneLandmark
    = Done (mkTemplate (file oneLandmark) image) [].
Proof.
  apply (rendering_after_triangulation
           (opencv := sampleOpenCV) (draw := countingDraw)
           (fl 1) false twoLandmarks noRects
           (DelaunayTransform.storeTriangles sampleTriangles twoLandmarks) oneLandmark []).
  - vm_compute. reflexivity.
  - vm_compute. repeat constructor.
  - vm_compute. reflexivity.
Defined.

(** ** Alignment with warp, then triangulation (exact arithmetic) *)

Section AlignedPointsFacts.
Local Open Scope R_scope.
Context {eigen : EigenLib R} {opencv : OpenCVLib R}.

Local Abbreviation sumOf f ps := (fold_right Rplus 0 (map f ps)).
Local Abbreviation squares := (fun p : Point R => pt_x p * pt_x p + pt_y p * pt_y p).

(** The sums of a normalized shape: both coordinates sum to zero, the
    squares sum to one. *)
Lemma normalized_sums (ps : list (Point R)) :
  shapeNorm ps <> 0 ->
  sumOf pt_x (normalizeShape ps) = 0
  /\ sumOf pt_y (normalizeShape ps) = 0
  /\ sumOf squares (normalizeShape ps) = 1.
Proof.
  rewrite shapeNorm_R, normalizeShape_R.
  set (c := cv_mean ps). set (centred := centerAt c ps). set (n := cv_norm centred).
  intros Hnorm.
  assert (Hne : ps <> []).
  { intros ->. apply Hnorm. unfold n, cv_norm. simpl. apply sqrt_0. }
  assert (Hlen : INR (length ps) <> 0).
  { apply not_0_INR. destruct ps; [contradiction | simpl; lia]. }
  destruct (sumOf_centerAt c ps) as [Hcx Hcy].
  destruct (sumOf_divideBy n centred) as (Hdx & Hdy & Hds).
  fold centred in Hcx, Hcy.
  rewrite Hdx, Hdy, Hds, Hcx, Hcy. unfold c. rewrite (cv_mean_R _ Hne).
  simpl fst. simpl snd.
  split; [field; split; assumption|]. split; [field; split; assumption|].
  assert (Hsq : n * n = sumOf squares centred).
  { unfold n, cv_norm. rewrite sumSquares_R. apply sqrt_sqrt, sumOf_squares_nonneg. }
  rewrite <- Hsq. field. exact Hnorm.
Qed.

Lemma nonneg_sum_zero (f : Point R -> R) (ps : list (Point R)) :
  Forall (fun p => 0 <= f p) ps -> sumOf f ps = 0 -> Forall (fun p => f p = 0) ps.
Proof.
  induction 1 as [|p ps Hp Hall IH]; intros Hsum; [constructor|].
  simpl in Hsum.
  assert (Hrest : 0 <= sumOf f ps).
  { clear -Hall. induction Hall as [|q qs Hq _ IHq]; simpl; lra. }
  constructor; [lra | apply IH; lra].
Qed.

(** Among the rows of [srcMat*R], for a normalized [srcMat] and a regular
    [R], one has a negative coordinate. *)
Lemma rotated_shape_has_negative (Rm : Matrix2 R) (ps : list (Point R)) :
  shapeNorm ps <> 0 ->
  m00 Rm * m11 Rm - m01 Rm * m10 Rm <> 0 ->
  Exists (fun p => pt_x p < 0 \/ pt_y p < 0)
         (ProcrustesTransform.dstMat Rm (ProcrustesTransform.srcMat ps)).
Proof.
  intros Hnorm Hdet.
  destruct (normalized_sums ps Hnorm) as (Hsx & Hsy & Hss).
  unfold ProcrustesTransform.dstMat, ProcrustesTransform.srcMat.
  rewrite map_map. simpl. unfold dot2. simpl.
  set (shape := normalizeShape ps) in *.
  set (rot := fun p : Point R =>
                Pt (pt_x p * m00 Rm + pt_y p * m10 Rm) (pt_x p * m01 Rm + pt_y p * m11 Rm)).
  change (Exists (fun p => pt_x p < 0 \/ pt_y p < 0) (map rot shape)).
  assert (Hdec : forall p : Point R,
             {0 <= pt_x p /\ 0 <= pt_y p} + {pt_x p < 0 \/ pt_y p < 0}).
  { intros p. destruct (Rle_lt_dec 0 (pt_x p)) as [Hx | Hx];
      destruct (Rle_lt_dec 0 (pt_y p)) as [Hy | Hy]; auto. }
  destruct (list.Forall_Exists_dec _ _ Hdec (map rot shape)) as [Hall | Hex];
    [|exact Hex].
  exfalso.
  assert (Hrx : sumOf pt_x (map rot shape) = 0).
  { transitivity (m00 Rm * sumOf pt_x shape + m10 Rm * sumOf pt_y shape);
      [|rewrite Hsx, Hsy; lra].
    clear. induction shape as [|p shape IH]; simpl; [lra|]. simpl in IH. rewrite IH. lra. }
  assert (Hry : sumOf pt_y (map rot shape) = 0).
  { transitivity (m01 Rm * sumOf pt_x shape + m11 Rm * sumOf pt_y shape);
      [|rewrite Hsx, Hsy; lra].
    clear. induction shape as [|p shape IH]; simpl; [lra|]. simpl in IH. rewrite IH. lra. }
  assert (Hzx : Forall (fun p => pt_x p = 0) (map rot shape)).
  { apply nonneg_sum_zero; [|exact Hrx].
    eapply Forall_impl; [exact Hall|]. simpl. tauto. }
  assert (Hzy : Forall (fun p => pt_y p = 0) (map rot shape)).
  { apply nonneg_sum_zero; [|exact Hry].
    eapply Forall_impl; [exact Hall|]. simpl. tauto. }
  assert (Hzero : sumOf squares shape = 0).
  { clear -Hzx Hzy Hdet. induction shape as [|p shape IH]; simpl; [reflexivity|].
    simpl in Hzx, Hzy. inversion Hzx as [|? ? Hx Hxs]; inversion Hzy as [|? ? Hy Hys]; subst.
    simpl in IH. rewrite (IH Hxs Hys). simpl in Hx, Hy.
    assert (Hpx : pt_x p * (m00 Rm * m11 Rm - m01 Rm * m10 Rm) = 0).
    { replace (pt_x p * (m00 Rm * m11 Rm - m01 Rm * m10 Rm))
        with (m11 Rm * (pt_x p * m00 Rm + pt_y p * m10 Rm)
              - m10 Rm * (pt_x p * m01 Rm + pt_y p * m11 Rm)) by ring.
      rewrite Hx, Hy. ring. }
    assert (Hpy : pt_y p * (m00 Rm * m11 Rm - m01 Rm * m10 Rm) = 0).
    { replace (pt_y p * (m00 Rm * m11 Rm - m01 Rm * m10 Rm))
        with (m00 Rm * (pt_x p * m01 Rm + pt_y p * m11 Rm)
              - m01 Rm * (pt_x p * m00 Rm + pt_y p * m10 Rm)) by ring.
      rewrite Hx, Hy. ring. }
    apply Rmult_integral in Hpx as [Hpx | Hpx]; [|contradiction].
    apply Rmult_integral in Hpy as [Hpy | Hpy]; [|contradiction].
    rewrite Hpx, Hpy. ring. }
  rewrite Hzero in Hss. lra.
Qed.

(** X8.  In exact arithmetic, a record aligned with warp on can no longer
    be triangulated.  For a source with points and rects, a centred norm
    that is not zero and a regular rotation (its determinant is not zero,
    as for the orthogonal [U*V^T]), the points alignment appends sum to
    zero in each coordinate, so one of them has a negative coordinate, and
    [DelaunayTransform::project] returns the aligned record as it came with
    the warning that points lie on the boundary. *)
Theorem aligned_points_fail_triangulation
        (meanShape : list (R * R)) (scaleFactor : R) (warp : bool)
        (src dst : Template R) :
  usable src = true ->
  shapeNorm (fullPoints src) <> 0 ->
  m00 (rotationOf meanShape src) * m11 (rotationOf meanShape src)
  - m01 (rotationOf meanShape src) * m10 (rotationOf meanShape src) <> 0 ->
  exists aligned,
    ProcrustesTransform.project true meanShape src = Done aligned []
    /\ file_points (file aligned)
       = file_points (file src) ++ alignedPoints meanShape src
    /\ DelaunayTransform.project scaleFactor warp aligned dst
       = Done aligned ["Delauney triangulation failed because points lie on boundary."].
Proof.
  intros Hu Hnorm Hdet.
  rewrite (project_usable true meanShape src Hu).
  eexists. split; [reflexivity|]. split; [reflexivity|].
  set (aligned := mkTemplate _ (m src)).
  assert (Hpoints : file_points (file aligned)
                    = file_points (file src) ++ alignedPoints meanShape src) by reflexivity.
  assert (Hrects : file_rects (file aligned) = file_rects (file src)) by reflexivity.
  apply usable_true_iff in Hu as [Hp Hr].
  assert (Hu' : isEmpty (file_points (file aligned)) || isEmpty (file_rects (file aligned))
                = false).
  { rewrite Hpoints, Hrects. apply orb_false_iff.
    split; apply isEmpty_false_iff; [|exact Hr].
    intros Hnil. apply app_eq_nil in Hnil as [Hnil _]. contradiction. }
  destruct (proj1 (List.Exists_exists _ _)
                  (rotated_shape_has_negative (rotationOf meanShape src)
                                              (fullPoints src) Hnorm Hdet))
    as (p & Hin & Hneg).
  unfold DelaunayTransform.project. rewrite Hu'.
  rewrite (insertPoints_None _ _ _ p); [reflexivity | |].
  - rewrite Hpoints, Hrects. unfold appendCorners.
    destruct (last (file_rects (file src))); [apply in_or_app; left|];
      apply in_or_app; right; exact Hin.
  - unfold DelaunayTransform.outOfBounds. simpl.
    destruct (Rlt_dec (pt_x p) 0) as [Hx | Hx]; [reflexivity|].
    destruct (Rlt_dec (pt_y p) 0) as [Hy | Hy]; [reflexivity|].
    exfalso. lra.
Qed.
End AlignedPointsFacts.

Lemma aligned_points_fail_triangulation_witness :
  exists aligned,
    ProcrustesTransform.project (eigen := identityRotationR) true [] squareR
    = Done aligned []
    /\ DelaunayTransform.project (opencv := emptyOpenCVR) 1%R true aligned squareR
       = Done aligned ["Delauney triangulation failed because points lie on boundary."].
Proof.
  destruct (aligned_points_fail_triangulation
              (eigen := identityRotationR) (opencv := emptyOpenCVR)
              [] 1%R true squareR squareR) as (aligned & Halign & _ & Hfail).
  - reflexivity.
  - exact squareR_norm_not_zero.
  - simpl. lra.
  - exists aligned. split; assumption.
Defined.

(** ** The sliding window ([SlidingWindowTransform::project]) *)

Lemma offset_test (stepSize extent window : Z) (k : nat) :
  (0 < stepSize)%Z ->
  (Z.of_nat k * stepSize + window <? extent)%Z
  = (k <? Z.to_nat ((extent - window + stepSize - 1) / stepSize)).
Proof.
  intros Hstep.
  pose proof (Z.div_mod (extent - window + stepSize - 1) stepSize) as Hdiv.
  pose proof (Z.mod_pos_bound (extent - window + stepSize - 1) stepSize Hstep) as Hmod.
  set (q := ((extent - window + stepSize - 1) / stepSize)%Z) in *.
  set (r := ((extent - window + stepSize - 1) mod stepSize)%Z) in *.
  specialize (Hdiv ltac:(lia)).
  destruct (Z.ltb_spec (Z.of_nat k * stepSize + window) extent) as [Hlt | Hge];
    destruct (Nat.ltb_spec k (Z.to_nat q)) as [Hk | Hk]; try reflexivity; exfalso.
  - assert (Hq : (q <= Z.of_nat k)%Z) by lia. nia.
  - assert (Hq : (Z.of_nat k + 1 <= q)%Z) by lia. nia.
Qed.

Lemma offsets_count_le (stepSize extent window : Z) :
  (0 < stepSize)%Z -> (0 <= window)%Z ->
  Z.to_nat ((extent - window + stepSize - 1) / stepSize) <= Z.to_nat extent.
Proof.
  intros Hstep Hwin.
  pose proof (Z.div_mod (extent - window + stepSize - 1) stepSize) as Hdiv.
  pose proof (Z.mod_pos_bound (extent - window + stepSize - 1) stepSize Hstep) as Hmod.
  set (q := ((extent - window + stepSize - 1) / stepSize)%Z) in *.
  specialize (Hdiv ltac:(lia)).
  assert (Hq : (q <= extent \/ q <= 0)%Z) by nia. lia.
Qed.

Lemma subMat_is_Some (image : Mat) (x y w h : Z) :
  (0 <= x)%Z -> (0 <= w)%Z -> (x + w < mat_cols image)%Z ->
  (0 <= y)%Z -> (0 <= h)%Z -> (y + h < mat_rows image)%Z ->
  is_Some (subMat image x y w h).
Proof.
  intros Hx Hw Hxw Hy Hh Hyh. unfold subMat.
  destruct (Z.leb_spec 0 x); [|lia]. destruct (Z.leb_spec 0 w); [|lia].
  destruct (Z.leb_spec (x + w) (mat_cols image)); [|lia].
  destruct (Z.leb_spec 0 y); [|lia]. destruct (Z.leb_spec 0 h); [|lia].
  destruct (Z.leb_spec (y + h) (mat_rows image)); [|lia].
  simpl. eexists; reflexivity.
Qed.

Section ScanFacts.
Context {F : Type} {num : Scalar F} {classifier : WindowClassifier F}.
Variables (stepSize windowWidth windowHeight : Z) (takeFirst : bool) (threshold : F).
Hypothesis step_positive : (0 < stepSize)%Z.
Hypothesis width_nonneg : (0 <= windowWidth)%Z.
Hypothesis height_nonneg : (0 <= windowHeight)%Z.

Local Abbreviation row_scan :=
  (SlidingWindowTransform.scanRow stepSize windowWidth windowHeight takeFirst threshold).
Local Abbreviation rows_scan :=
  (SlidingWindowTransform.scanRows stepSize windowWidth windowHeight takeFirst threshold).
Local Abbreviation walk := (scanOver windowWidth windowHeight takeFirst threshold).
Local Abbreviation columns image :=
  (Z.to_nat ((mat_cols image - windowWidth + stepSize - 1) / stepSize)).
Local Abbreviation lines image :=
  (Z.to_nat ((mat_rows image - windowHeight + stepSize - 1) / stepSize)).

Lemma walk_app (src : Template F) (scale : F) (l1 l2 : list (Z * Z)) :
  forall state,
    walk src scale (l1 ++ l2) state
    = match walk src scale l1 state with
      | Finished state' => walk src scale l2 state'
      | other => other
      end.
Proof.
  induction l1 as [|corner l1 IH]; intros state; simpl; [reflexivity|].
  destruct (detected _ _ _ _ _); [destruct takeFirst|]; try reflexivity; apply IH.
Qed.

(** The loop over [x] visits the offsets of the row, one after the other. *)
Lemma scanRow_walk (src : Template F) (scale : F) (y : Z) :
  (0 <= y)%Z -> (y + windowHeight < mat_rows (m src))%Z ->
  forall n k fuel state,
    k + n = columns (m src) -> n < fuel ->
    row_scan fuel src scale y (Z.of_nat k * stepSize)%Z state
    = walk src scale (map (fun j => (Z.of_nat j * stepSize, y)%Z) (seq k n)) state.
Proof using step_positive width_nonneg height_nonneg.
  intros Hy Hyh.
  induction n as [|n IH]; intros k fuel state Hk Hfuel;
    (destruct fuel as [|fuel]; [lia|]); simpl.
  - rewrite (offset_test stepSize _ _ k step_positive).
    destruct (Nat.ltb_spec k (columns (m src))); [lia | reflexivity].
  - rewrite (offset_test stepSize _ _ k step_positive).
    destruct (Nat.ltb_spec k (columns (m src))) as [Hlt | Hge]; [|lia].
    assert (Hin : (Z.of_nat k * stepSize + windowWidth < mat_cols (m src))%Z).
    { apply Z.ltb_lt. rewrite (offset_test stepSize _ _ k step_positive).
      apply Nat.ltb_lt. exact Hlt. }
    destruct (subMat_is_Some (m src) (Z.of_nat k * stepSize) y windowWidth windowHeight)
      as [windowMat Hsub]; try lia.
    unfold detected, windowConfidence. simpl. rewrite Hsub.
    replace (Z.of_nat k * stepSize + stepSize)%Z with (Z.of_nat (S k) * stepSize)%Z by lia.
    destruct (fltb threshold _); [destruct takeFirst|]; try reflexivity;
      apply IH; lia.
Qed.

(** The loop over [y] visits the windows of the image, row after row. *)
Lemma scanRows_walk (src : Template F) (scale : F) :
  forall n k fuel rowFuel state,
    k + n = lines (m src) -> n < fuel -> columns (m src) < rowFuel ->
    rows_scan fuel rowFuel src scale (Z.of_nat k * stepSize)%Z state
    = walk src scale
           (flat_map (fun y => map (fun x => (x, y))
                                   (offsets stepSize (mat_cols (m src)) windowWidth))
                     (map (fun j => (Z.of_nat j * stepSize)%Z) (seq k n)))
           state.
Proof using step_positive width_nonneg height_nonneg.
  induction n as [|n IH]; intros k fuel rowFuel state Hk Hfuel Hrow;
    (destruct fuel as [|fuel]; [lia|]); simpl.
  - rewrite (offset_test stepSize _ _ k step_positive).
    destruct (Nat.ltb_spec k (lines (m src))); [lia | reflexivity].
  - rewrite (offset_test stepSize _ _ k step_positive).
    destruct (Nat.ltb_spec k (lines (m src))) as [Hlt | Hge]; [|lia].
    assert (Hin : (Z.of_nat k * stepSize + windowHeight < mat_rows (m src))%Z).
    { apply Z.ltb_lt. rewrite (offset_test stepSize _ _ k step_positive).
      apply Nat.ltb_lt. exact Hlt. }
    rewrite walk_app.
    pose proof (scanRow_walk src scale (Z.of_nat k * stepSize)%Z ltac:(lia) Hin
                  (columns (m src)) 0 rowFuel state eq_refl Hrow) as Hinner.
    change (Z.of_nat 0 * stepSize)%Z with 0%Z in Hinner. rewrite Hinner.
    unfold offsets. rewrite map_map.
    destruct (walk src scale _ state) as [state'| | |]; try reflexivity.
    replace (Z.of_nat k * stepSize + stepSize)%Z with (Z.of_nat (S k) * stepSize)%Z by lia.
    apply IH; lia.
Qed.

(** The whole scan, given steps enough for the larger side of the image. *)
Lemma scan_walk (src : Template F) (scale : F) (fuel : nat) state :
  Z.to_nat (Z.max (mat_rows (m src)) (mat_cols (m src))) < fuel ->
  rows_scan fuel fuel src scale 0 state
  = walk src scale (windows stepSize windowWidth windowHeight (m src)) state.
Proof using step_positive width_nonneg height_nonneg.
  intros Hfuel.
  pose proof (offsets_count_le stepSize (mat_rows (m src)) windowHeight
                step_positive height_nonneg) as Hlines.
  pose proof (offsets_count_le stepSize (mat_cols (m src)) windowWidth
                step_positive width_nonneg) as Hcolumns.
  pose proof (scanRows_walk src scale (lines (m src)) 0 fuel fuel state eq_refl) as Hwalk.
  change (Z.of_nat 0 * stepSize)%Z with 0%Z in Hwalk. rewrite Hwalk by lia. reflexivity.
Qed.
End ScanFacts.

Section SlidingFacts.
Context {F : Type} {num : Scalar F} {classifier : WindowClassifier F}.
Variables (stepSize windowWidth windowHeight : Z) (threshold : F).

Local Abbreviation rect_of scale :=
  (fun corner : Z * Z =>
     SlidingWindowTransform.windowRect windowWidth windowHeight scale
                                       (fst corner) (snd corner)).
Local Abbreviation confidence_of src :=
  (windowConfidence windowWidth windowHeight src).
Local Abbreviation found src := (detected windowWidth windowHeight threshold src).

Lemma walk_all (src : Template F) (scale : F) (corners : list (Z * Z)) :
  forall f confidences,
    scanOver windowWidth windowHeight false threshold src scale corners (f, confidences)
    = Finished (mkFile (file_points f)
                       (file_rects f ++ map (rect_of scale) (List.filter (found src) corners))
                       (file_metadata f),
                confidences ++ map (confidence_of src) (List.filter (found src) corners)).
Proof.
  induction corners as [|corner corners IH]; intros f confidences; simpl.
  - rewrite !app_nil_r. destruct f; reflexivity.
  - destruct (found src corner); simpl.
    + rewrite IH. simpl. rewrite <- !app_assoc. reflexivity.
    + apply IH.
Qed.

Lemma walk_first (src : Template F) (scale : F) (corners : list (Z * Z)) :
  forall state,
    scanOver windowWidth windowHeight true threshold src scale corners state
    = match List.filter (found src) corners with
      | [] => Finished state
      | corner :: _ =>
          EarlyReturn (SlidingWindowTransform.appendRect (rect_of scale corner) (fst state),
                       snd state ++ [confidence_of src corner])
      end.
Proof.
  induction corners as [|corner corners IH]; intros state; simpl; [reflexivity|].
  destruct (found src corner); simpl; [reflexivity | apply IH].
Qed.

(** X9.  With a positive step and [takeFirst] off, the scan ends and
    reports exactly the windows whose confidence is above the threshold:
    the corners are the multiples of the step, row after row, for which the
    window ends strictly before the last column and the last row.  The old
    rects are dropped, each detection adds one rect (corner and size times
    [scale]) and one confidence after those the record had, so rects and
    new confidences go in pairs; points, image and the other keys stay. *)
Theorem sliding_window_reports_detections
        (scale : F) (src : Template F) (fuel : nat) :
  (0 < stepSize)%Z -> (0 <= windowWidth)%Z -> (0 <= windowHeight)%Z ->
  Z.to_nat (Z.max (mat_rows (m src)) (mat_cols (m src))) < fuel ->
  SlidingWindowTransform.project stepSize windowWidth windowHeight false threshold
                                 fuel false scale src
  = Finished
      (mkTemplate
         (mkFile (file_points (file src))
                 (map (rect_of scale)
                      (detections stepSize windowWidth windowHeight threshold src))
                 (<["Confidences" :=
                      VFloats (getFloats "Confidences" (file src)
                               ++ map (confidence_of src)
                                      (detections stepSize windowWidth windowHeight
                                                  threshold src))]>
                    (file_metadata (file src))))
         (m src)).
Proof.
  intros Hstep Hw Hh Hfuel.
  unfold SlidingWindowTransform.project.
  rewrite (scan_walk stepSize windowWidth windowHeight false threshold Hstep Hw Hh
                     src scale fuel _ Hfuel).
  rewrite walk_all. reflexivity.
Qed.

(** X10.  With [takeFirst] on, the scan stops at the first window above
    the threshold: the record then has that one rect, and its metadata are
    those of the source, the confidence of the detection is not stored
    (the [return] of line 92 comes before line 96).  When no window is
    above the threshold the record has no rect and "Confidences" is
    written back as it was read. *)
Theorem sliding_window_take_first
        (scale : F) (src : Template F) (fuel : nat) :
  (0 < stepSize)%Z -> (0 <= windowWidth)%Z -> (0 <= windowHeight)%Z ->
  Z.to_nat (Z.max (mat_rows (m src)) (mat_cols (m src))) < fuel ->
  SlidingWindowTransform.project stepSize windowWidth windowHeight true threshold
                                 fuel false scale src
  = Finished
      (match detections stepSize windowWidth windowHeight threshold src with
       | [] =>
           mkTemplate
             (mkFile (file_points (file src)) []
                     (<["Confidences" := VFloats (getFloats "Confidences" (file src))]>
                        (file_metadata (file src))))
             (m src)
       | corner :: _ =>
           mkTemplate
             (mkFile (file_points (file src)) [rect_of scale corner]
                     (file_metadata (file src)))
             (m src)
       end).
Proof.
  intros Hstep Hw Hh Hfuel.
  unfold SlidingWindowTransform.project.
  rewrite (scan_walk stepSize windowWidth windowHeight true threshold Hstep Hw Hh
                     src scale fuel _ Hfuel).
  rewrite walk_first. unfold detections.
  destruct (List.filter _ _); reflexivity.
Qed.

(** X11.  An image that is not larger than the window in one direction
    (rows <= windowHeight or cols <= windowWidth, equality included: the
    loops test [y + windowHeight < rows] and [x + windowWidth < cols])
    gives no rect at all: no window is handed to the classifier. *)
Theorem sliding_window_small_image
        (takeFirst : bool) (scale : F) (src : Template F) (fuel : nat) :
  (0 < stepSize)%Z -> (0 <= windowWidth)%Z -> (0 <= windowHeight)%Z ->
  Z.to_nat (Z.max (mat_rows (m src)) (mat_cols (m src))) < fuel ->
  (mat_rows (m src) <= windowHeight \/ mat_cols (m src) <= windowWidth)%Z ->
  windows stepSize windowWidth windowHeight (m src) = []
  /\ SlidingWindowTransform.project stepSize windowWidth windowHeight takeFirst threshold
                                    fuel false scale src
     = Finished
         (mkTemplate
            (mkFile (file_points (file src)) []
                    (<["Confidences" := VFloats (getFloats "Confidences" (file src))]>
                       (file_metadata (file src))))
            (m src)).
Proof.
  intros Hstep Hw Hh Hfuel Hsmall.
  assert (Hnone : windows stepSize windowWidth windowHeight (m src) = []).
  { unfold windows, offsets.
    destruct Hsmall as [Hrows | Hcols].
    - replace (Z.to_nat ((mat_rows (m src) - windowHeight + stepSize - 1) / stepSize))
        with 0; [reflexivity|].
      pose proof (offset_test stepSize (mat_rows (m src)) windowHeight 0 Hstep) as Ht.
      destruct (Nat.ltb_spec 0 (Z.to_nat ((mat_rows (m src) - windowHeight + stepSize - 1)
                                          / stepSize))) as [Hlt | Hge]; [|lia].
      apply Z.ltb_lt in Ht. lia.
    - replace (Z.to_nat ((mat_cols (m src) - windowWidth + stepSize - 1) / stepSize))
        with 0.
      + simpl. induction (map _ _) as [|y ys IH]; [reflexivity | exact IH].
      + pose proof (offset_test stepSize (mat_cols (m src)) windowWidth 0 Hstep) as Ht.
        destruct (Nat.ltb_spec 0 (Z.to_nat ((mat_cols (m src) - windowWidth + stepSize - 1)
                                            / stepSize))) as [Hlt | Hge]; [|lia].
        apply Z.ltb_lt in Ht. lia. }
  split; [exact Hnone|].
  unfold SlidingWindowTransform.project.
  rewrite (scan_walk stepSize windowWidth windowHeight takeFirst threshold Hstep Hw Hh
                     src scale fuel _ Hfuel).
  rewrite Hnone. reflexivity.
Qed.

(** X12.  A step that is not positive: when the first window fits and is
    not a detection that ends the scan, a step of zero keeps the scan on
    that window for ever (no number of steps ends it), and a negative step
    moves the second window to a negative column, where [Mat(src, Rect)]
    raises. *)
Theorem sliding_window_bad_step
        (takeFirst : bool) (scale : F) (src : Template F) :
  (0 <= windowWidth < mat_cols (m src))%Z ->
  (0 <= windowHeight < mat_rows (m src))%Z ->
  takeFirst = false \/ found src (0%Z, 0%Z) = false ->
  (stepSize = 0%Z ->
   forall fuel,
     SlidingWindowTransform.project stepSize windowWidth windowHeight takeFirst threshold
                                    fuel false scale src = Unfinished)
  /\ ((stepSize < 0)%Z ->
      forall fuel,
        2 <= fuel ->
        SlidingWindowTransform.project stepSize windowWidth windowHeight takeFirst
                                       threshold fuel false scale src = Raised).
Proof.
  intros Hw Hh Hfirst.
  destruct (subMat_is_Some (m src) 0 0 windowWidth windowHeight) as [windowMat Hsub];
    try lia.
  assert (Hbody : forall early k1 k2 : Scan (File F * list F),
             (if fltb threshold (confidence (mkTemplate (file src) windowMat))
              then if takeFirst then early else k1
              else k2)
             = (if fltb threshold (confidence (mkTemplate (file src) windowMat))
                then k1 else k2)).
  { intros early k1 k2. destruct Hfirst as [-> | Hnot]; [reflexivity|].
    unfold detected, windowConfidence in Hnot. simpl in Hnot. rewrite Hsub in Hnot.
    rewrite Hnot. reflexivity. }
  split.
  - intros -> fuel. unfold SlidingWindowTransform.project.
    assert (Hrow : forall n state,
               SlidingWindowTransform.scanRow 0 windowWidth windowHeight takeFirst
                                              threshold n src scale 0 0 state
               = Unfinished).
    { induction n as [|n IH]; intros state; simpl; [reflexivity|].
      destruct (Z.ltb_spec (0 + windowWidth) (mat_cols (m src))); [|lia].
      rewrite Hsub, Hbody.
      destruct (fltb threshold _); apply IH. }
    destruct fuel as [|fuel]; [reflexivity|].
    cbn [SlidingWindowTransform.scanRows].
    destruct (Z.ltb_spec (0 + windowHeight) (mat_rows (m src))); [|lia].
    rewrite Hrow. reflexivity.
  - intros Hneg fuel Hfuel. unfold SlidingWindowTransform.project.
    destruct fuel as [|[|fuel]]; try lia.
    assert (Hsecond : forall state,
               SlidingWindowTransform.scanRow stepSize windowWidth windowHeight takeFirst
                                              threshold (S fuel) src scale 0
                                              (0 + stepSize) state
               = Raised).
    { intros state. simpl.
      destruct (Z.ltb_spec (0 + stepSize + windowWidth) (mat_cols (m src))); [|lia].
      unfold subMat. destruct (Z.leb_spec 0 (0 + stepSize)); [lia|]. reflexivity. }
    remember (S fuel) as fuel1 eqn:Hfuel1.
    cbn [SlidingWindowTransform.scanRows].
    destruct (Z.ltb_spec (0 + windowHeight) (mat_rows (m src))); [|lia].
    cbn [SlidingWindowTransform.scanRow].
    destruct (Z.ltb_spec (0 + windowWidth) (mat_cols (m src))); [|lia].
    rewrite Hsub, Hbody.
    destruct (fltb threshold _); rewrite Hsecond; reflexivity.
Qed.
End SlidingFacts.

Lemma sliding_window_reports_detections_witness :
  exists out,
    SlidingWindowTransform.project (classifier := firstPixel) 1 2 2 false (fl 3)
                                   5 false (fl 1) twoLandmarks = Finished out
    /\ file_rects (file out) = [Rect (fl 0) (fl 1) (fl 2) (fl 2);
                                Rect (fl 1) (fl 1) (fl 2) (fl 2)]
    /\ getFloats "Confidences" (file out) = [fl 4; fl 5].
Proof.
  rewrite (sliding_window_reports_detections (classifier := firstPixel)
             1 2 2 (fl 3) (fl 1) twoLandmarks 5);
    [|lia|lia|lia|vm_compute; lia].
  eexists. split; [reflexivity|]. split; vm_compute; reflexivity.
Defined.

Lemma sliding_window_take_first_witness :
  SlidingWindowTransform.project (classifier := firstPixel) 1 2 2 true (fl 3)
                                 5 false (fl 1) twoLandmarks
  = Finished (mkTemplate
                (mkFile (file_points (file twoLandmarks))
                        [Rect (fl 0) (fl 1) (fl 2) (fl 2)] ∅)
                (m twoLandmarks)).
Proof.
  rewrite (sliding_window_take_first (classifier := firstPixel)
             1 2 2 (fl 3) (fl 1) twoLandmarks 5);
    [|lia|lia|lia|vm_compute; lia].
  vm_compute. reflexivity.
Defined.

Lemma sliding_window_small_image_witness :
  exists out,
    SlidingWindowTransform.project (classifier := firstPixel) 1 4 2 false (fl 3)
                                   5 false (fl 1) twoLandmarks = Finished out
    /\ file_rects (file out) = [].
Proof.
  destruct (sliding_window_small_image (classifier := firstPixel)
              1 4 2 (fl 3) false (fl 1) twoLandmarks 5) as [_ Hrun];
    [lia|lia|lia|vm_compute; lia|right; vm_compute; discriminate|].
  rewrite Hrun. eexists. split; reflexivity.
Defined.

Lemma sliding_window_bad_step_witness :
  SlidingWindowTransform.project (classifier := firstPixel) 0 2 2 true (fl 3)
                                 1000 false (fl 1) twoLandmarks = Unfinished
  /\ SlidingWindowTransform.project (classifier := firstPixel) (-1) 2 2 true (fl 3)
                                    1000 false (fl 1) twoLandmarks = Raised.
Proof.
  destruct (sliding_window_bad_step (classifier := firstPixel)
              0 2 2 (fl 3) true (fl 1) twoLandmarks) as [Hzero _];
    [vm_compute; split; [discriminate | reflexivity]
    |vm_compute; split; [discriminate | reflexivity]
    |right; vm_compute; reflexivity|].
  destruct (sliding_window_bad_step (classifier := firstPixel)
              (-1) 2 2 (fl 3) true (fl 1) twoLandmarks) as [_ Hneg];
    [vm_compute; split; [discriminate | reflexivity]
    |vm_compute; split; [discriminate | reflexivity]
    |right; vm_compute; reflexivity|].
  split; [apply Hzero; reflexivity | apply Hneg; lia].
Defined.

(** ** The average aspect ratio ([getAspectRatio]) and [overlaps] *)

Section AspectRatioFacts.
Context {F : Type} {num : Scalar F} {conversion : RectConversion F}.

Lemma addRatios_all_skipped (image : Mat) (posRects : list CvRect) (acc : F * Z) :
  Forall (fun r => skipped image r = true) posRects ->
  addRatios image posRects acc = acc.
Proof.
  unfold addRatios. intros Hall. revert acc.
  induction Hall as [|r rs Hr _ IH]; intros acc; simpl; [reflexivity|].
  rewrite Hr. apply IH.
Qed.

(** When every rect of every record is skipped, the sum is zero, the count
    is zero, and the average is their quotient. *)
Lemma getAspectRatio_nothing_counted (data : list (Template F)) :
  Forall (fun tmpl => Forall (fun r => skipped (m tmpl) (toRect r) = true)
                             (file_rects (file tmpl))) data ->
  getAspectRatio data = to_float (fdiv f0 (of_Z 0)).
Proof.
  intros Hall. unfold getAspectRatio.
  assert (Hfold : forall acc,
             fold_left (fun acc tmpl =>
                          addRatios (m tmpl) (map toRect (file_rects (file tmpl))) acc)
                       data acc = acc).
  { induction Hall as [|tmpl rest Ht _ IH]; intros acc; simpl; [reflexivity|].
    rewrite addRatios_all_skipped; [apply IH|].
    apply List.Forall_forall. intros r Hr. apply in_map_iff in Hr as (q & <- & Hq).
    rewrite List.Forall_forall in Ht. exact (Ht q Hq). }
  rewrite Hfold. reflexivity.
Qed.
End AspectRatioFacts.

(** X13.  In binary64, when no rect of the data is counted (no record, no
    rect, or only rects that the test of line 23 skips, with its sums
    x + width and y + height taken as [int]s), [getAspectRatio] divides
    zero by zero and returns not-a-number; nothing is reported. *)
Theorem aspect_ratio_of_nothing_is_nan
        (conversion : RectConversion PrimFloat.float)
        (data : list (Template PrimFloat.float)) :
  Forall (fun tmpl => Forall (fun r => skipped (m tmpl) (toRect r) = true)
                             (file_rects (file tmpl))) data ->
  getAspectRatio data = PrimFloat.nan.
Proof.
  intros Hall. rewrite (getAspectRatio_nothing_counted data Hall).
  vm_compute. reflexivity.
Qed.

Lemma aspect_ratio_of_nothing_is_nan_witness :
  getAspectRatio (conversion := truncatingRects) [noRects; wholeImage] = PrimFloat.nan.
Proof.
  apply (aspect_ratio_of_nothing_is_nan truncatingRects [noRects; wholeImage]).
  repeat constructor.
Defined.

(** An [int] result that fits is the exact one. *)
Lemma wrap_int_exact (z : Z) : (- 2 ^ 31 <= z < 2 ^ 31)%Z -> wrap_int z = z.
Proof.
  intros Hz. unfold wrap_int.
  change (2 ^ 31)%Z with 2147483648%Z in *. change (2 ^ 32)%Z with 4294967296%Z.
  rewrite Z.mod_small; lia.
Qed.

(** On a rect with exact sums the test of line 23 is the plain one. *)
Lemma skipped_plain (image : Mat) (r : CvRect) :
  plainRect r ->
  skipped image r
  = ((mat_cols image <=? rc_x r + rc_width r)
     || (mat_rows image <=? rc_y r + rc_height r))%Z.
Proof.
  intros (Hx & Hy & Hw & Hh & Hright & Hbottom). unfold skipped, int_add.
  rewrite !wrap_int_exact by lia.
  destruct (Z.ltb_spec (rc_x r) 0); [lia|]. destruct (Z.ltb_spec (rc_y r) 0); [lia|].
  rewrite !orb_false_r. reflexivity.
Qed.

(** Where a sum does not fit: in a 4 x 4 image the rect of width 1 at
    x = 2147483647 has its right side at -2147483648, and is not skipped. *)
Lemma skipped_sum_wraps :
  skipped (blank 4 4) (mkCvRect 2147483647 0 1 1) = false.
Proof. reflexivity. Qed.

Lemma rectCount_cons {F : Type} (tmpl : Template F) (rest : list (Template F)) :
  rectCount (tmpl :: rest) = length (file_rects (file tmpl)) + rectCount rest.
Proof. unfold rectCount. simpl. apply length_app. Qed.

Section AspectRatioBounds.
Local Open Scope R_scope.
Context {conversion : RectConversion R}.
Variables (lo hi : R).

Local Abbreviation ratio r := (IZR (rc_width r) / IZR (rc_height r)).
Local Abbreviation within acc :=
  (Z.le 0 (snd acc) /\ lo * IZR (snd acc) <= fst acc <= hi * IZR (snd acc)).

(** The sum and the count after the rects of one record, as long as the
    count stays an [int]. *)
Lemma addRatios_within (image : Mat) (posRects : list CvRect) :
  Forall (fun r => skipped image r = false -> lo <= ratio r <= hi) posRects ->
  forall acc : R * Z,
    within acc ->
    (snd acc + Z.of_nat (length posRects) < 2 ^ 31)%Z ->
    within (addRatios image posRects acc)
    /\ (snd acc <= snd (addRatios image posRects acc)
        <= snd acc + Z.of_nat (length posRects))%Z
    /\ (Exists (fun r => skipped image r = false) posRects ->
        (snd acc < snd (addRatios image posRects acc))%Z).
Proof.
  unfold addRatios.
  induction 1 as [|r rs Hr _ IH]; intros acc Hacc Hfit.
  - simpl. split; [exact Hacc|]. split; [lia|]. intros Hex. inversion Hex.
  - change (length (r :: rs)) with (S (length rs)) in *.
    rewrite Nat2Z.inj_succ in *.
    cbn [fold_left]. destruct (skipped image r) eqn:Hskip.
    + destruct (IH acc Hacc) as (Hin & Hle & Hlt); [lia|].
      split; [exact Hin|]. split; [lia|].
      intros Hex. inversion Hex as [? ? Hhere | ? ? Hthere]; subst;
        [congruence | exact (Hlt Hthere)].
    + specialize (Hr eq_refl).
      assert (Hcount : int_add (snd acc) 1 = (snd acc + 1)%Z).
      { unfold int_add. apply wrap_int_exact.
        destruct Hacc as [Hc _]. change (2 ^ 31)%Z with 2147483648%Z in *. lia. }
      rewrite Hcount.
      destruct (IH (fadd (fst acc)
                         (to_float (fdiv (to_float (of_Z (rc_width r)))
                                         (to_float (of_Z (rc_height r))))),
                    (snd acc + 1)%Z)) as (Hin & Hle & Hlt).
      { cbn [fst snd fadd fdiv to_float of_Z R_Scalar].
        destruct Hacc as [Hc Ht]. split; [lia|].
        rewrite plus_IZR. lra. }
      { cbn [snd]. lia. }
      cbn [snd] in Hle. split; [exact Hin|]. split; [lia|]. intros _. lia.
Qed.

(** X14.  In exact arithmetic, when the data has fewer than 2^31 rects, at
    least one rect is counted and no counted rect has height 0,
    [getAspectRatio] lies between any two bounds that hold for the ratio
    width/height of every counted rect: it is an average of those ratios,
    and the skipped rects have no part in it. *)
Theorem aspect_ratio_within_bounds (data : list (Template R)) :
  (Z.of_nat (rectCount data) < 2 ^ 31)%Z ->
  Forall (fun tmpl =>
            Forall (fun r => skipped (m tmpl) (toRect r) = false ->
                             rc_height (toRect r) <> 0%Z
                             /\ lo <= ratio (toRect r) <= hi)
                   (file_rects (file tmpl))) data ->
  Exists (fun tmpl => Exists (fun r => skipped (m tmpl) (toRect r) = false)
                             (file_rects (file tmpl))) data ->
  lo <= getAspectRatio data <= hi.
Proof.
  intros Hfew Hall Hsome. unfold getAspectRatio.
  assert (Hfold : forall acc : R * Z,
             within acc ->
             (snd acc + Z.of_nat (rectCount data) < 2 ^ 31)%Z ->
             let sums :=
               fold_left (fun acc tmpl =>
                            addRatios (m tmpl) (map toRect (file_rects (file tmpl))) acc)
                         data acc in
             within sums
             /\ (snd acc <= snd sums <= snd acc + Z.of_nat (rectCount data))%Z
             /\ (Exists (fun tmpl => Exists (fun r => skipped (m tmpl) (toRect r) = false)
                                            (file_rects (file tmpl))) data ->
                 (snd acc < snd sums)%Z)).
  { clear Hsome Hfew. induction Hall as [|tmpl rest Ht _ IH]; intros acc Hacc Hfit.
    - simpl. split; [exact Hacc|]. split; [unfold rectCount; simpl; lia|].
      intros Hex. inversion Hex.
    - rewrite rectCount_cons, Nat2Z.inj_add in *. cbn [fold_left].
      destruct (addRatios_within (m tmpl) (map toRect (file_rects (file tmpl))))
        with (acc := acc) as (Hin & Hle & Hlt); [|exact Hacc| |].
      { apply List.Forall_forall. intros r Hr. apply in_map_iff in Hr as (q & <- & Hq).
        rewrite List.Forall_forall in Ht. intros Hcounted.
        exact (proj2 (Ht q Hq Hcounted)). }
      { rewrite length_map. lia. }
      rewrite length_map in Hle.
      destruct (IH _ Hin) as (Hin' & Hle' & Hlt'); [lia|].
      split; [exact Hin'|]. split; [lia|].
      intros Hex. inversion Hex as [? ? Hhere | ? ? Hthere]; subst.
      + assert (Hcount : (snd acc
                          < snd (addRatios (m tmpl) (map toRect (file_rects (file tmpl)))
                                           acc))%Z).
        { apply Hlt. apply List.Exists_exists in Hhere as (q & Hq & Hskip).
          apply List.Exists_exists. exists (toRect q). split; [|exact Hskip].
          apply in_map. exact Hq. }
        lia.
      + specialize (Hlt' Hthere). lia. }
  set (sums := fold_left _ data (f0, 0%Z)).
  pose proof (Hfold (f0, 0%Z)) as Hsums. cbv zeta in Hsums. fold sums in Hsums.
  destruct Hsums as (Hin & _ & Hlt).
  { simpl. split; [lia | lra]. }
  { cbn [snd]. lia. }
  specialize (Hlt Hsome). change (snd (f0, 0%Z)) with 0%Z in Hlt.
  change (lo <= fst sums / IZR (snd sums) <= hi).
  destruct Hin as [_ Hin].
  assert (Hpos : 0 < IZR (snd sums)) by (apply IZR_lt; exact Hlt).
  assert (Hq : fst sums / IZR (snd sums) * IZR (snd sums) = fst sums) by (field; lra).
  split; apply (Rmult_le_reg_r (IZR (snd sums))); try exact Hpos; rewrite Hq; lra.
Qed.
End AspectRatioBounds.

Lemma aspect_ratio_within_bounds_witness :
  (2 <= getAspectRatio (conversion := constantRectR) [squareR] <= 2)%R.
Proof.
  apply (aspect_ratio_within_bounds (conversion := constantRectR) 2 2 [squareR]).
  - vm_compute. reflexivity.
  - repeat constructor; simpl; [discriminate | lra | lra].
  - repeat constructor.
Defined.

Section OverlapFacts.
Local Open Scope R_scope.

(** The intersection of two rects with exact sums has a positive area
    exactly when they share a pixel; the area of one of them is an
    [int]. *)
Lemma intersect_area_positive (a b : CvRect) :
  plainRect a -> plainRect b ->
  (rc_width a * rc_height a < 2 ^ 31)%Z ->
  (0 < area (intersect a b))%Z
  <-> exists px py, containsPixel a px py /\ containsPixel b px py.
Proof.
  intros (Hax & Hay & Haw & Hah & Har & Hab) (Hbx & Hby & Hbw & Hbh & Hbr & Hbb) Harea.
  unfold area, intersect, containsPixel, int_add, int_sub, int_mul.
  change (2 ^ 31)%Z with 2147483648%Z in *.
  rewrite (wrap_int_exact (rc_x a + rc_width a)),
    (wrap_int_exact (rc_x b + rc_width b)),
    (wrap_int_exact (rc_y a + rc_height a)),
    (wrap_int_exact (rc_y b + rc_height b))
    by (change (2 ^ 31)%Z with 2147483648%Z; lia).
  rewrite (wrap_int_exact (Z.min (rc_x a + rc_width a) (rc_x b + rc_width b)
                           - Z.max (rc_x a) (rc_x b))),
    (wrap_int_exact (Z.min (rc_y a + rc_height a) (rc_y b + rc_height b)
                     - Z.max (rc_y a) (rc_y b)))
    by (change (2 ^ 31)%Z with 2147483648%Z; lia).
  destruct (Z.leb_spec (Z.min (rc_x a + rc_width a) (rc_x b + rc_width b)
                        - Z.max (rc_x a) (rc_x b)) 0) as [Hw | Hw];
    [|destruct (Z.leb_spec (Z.min (rc_y a + rc_height a) (rc_y b + rc_height b)
                            - Z.max (rc_y a) (rc_y b)) 0) as [Hh | Hh]]; simpl.
  - change (wrap_int (0 * 0)) with 0%Z. split; [lia|]. intros (px & py & Ha & Hb). lia.
  - change (wrap_int (0 * 0)) with 0%Z. split; [lia|]. intros (px & py & Ha & Hb). lia.
  - rewrite wrap_int_exact.
    + split.
      * intros _. exists (Z.max (rc_x a) (rc_x b)), (Z.max (rc_y a) (rc_y b)). lia.
      * intros _. apply Z.mul_pos_pos; lia.
    + change (2 ^ 31)%Z with 2147483648%Z. split; [nia|].
      apply Z.le_lt_trans with (rc_width a * rc_height a)%Z; [|exact Harea].
      apply Z.mul_le_mono_nonneg; lia.
Qed.

(** Where the area does not fit: a rect of 65536 x 65536 pixels has area 0
    as an [int], and is not found to overlap itself. *)
Lemma overlaps_area_wraps :
  area (mkCvRect 0 0 65536 65536) = 0%Z
  /\ BuildScalesTransform.overlaps (F := R) [mkCvRect 0 0 65536 65536]
                                   (mkCvRect 0 0 65536 65536) 0 = false.
Proof.
  split; [reflexivity|].
  simpl. change (area (intersect _ _)) with 0%Z.
  change (area (mkCvRect 0 0 65536 65536)) with 0%Z.
  destruct (Rlt_dec (0 * 0) 0) as [Hlt | _]; [lra | reflexivity].
Qed.

(** X15.  Take rects with corners, widths and heights that are not
    negative and right and bottom sides that are [int]s, and a candidate
    whose area is an [int].  Then, in exact arithmetic,
    [overlaps(posRects, negRect, 0)] answers whether the candidate shares a
    pixel with one of the rects of the list: it is true exactly when some
    rect of the list and [negRect] have a pixel in common.  A negative
    sample that is kept therefore shares no pixel with any positive
    rect. *)
Theorem overlaps_zero_iff_shared_pixel (posRects : list CvRect) (negRect : CvRect) :
  plainRect negRect ->
  (rc_width negRect * rc_height negRect < 2 ^ 31)%Z ->
  Forall plainRect posRects ->
  BuildScalesTransform.overlaps (F := R) posRects negRect 0 = true
  <-> exists posRect px py,
      In posRect posRects
      /\ containsPixel negRect px py /\ containsPixel posRect px py.
Proof.
  intros Hneg Harea Hall.
  induction Hall as [|posRect rest Hpos _ IH]; simpl.
  - split; [discriminate | intros (r & px & py & [] & _)].
  - pose proof (intersect_area_positive negRect posRect Hneg Hpos Harea) as Hshared.
    destruct (Rlt_dec (0 * IZR (area posRect)) (IZR (area (intersect negRect posRect))))
      as [Hlt | Hge].
    + split; [intros _ | reflexivity].
      rewrite Rmult_0_l in Hlt. apply lt_IZR in Hlt.
      apply Hshared in Hlt as (px & py & Hn & Hp).
      exists posRect, px, py. auto.
    + rewrite IH. split.
      * intros (r & px & py & Hin & Hn & Hp). exists r, px, py. auto.
      * intros (r & px & py & [<- | Hin] & Hn & Hp).
        -- exfalso. apply Hge. rewrite Rmult_0_l. apply IZR_lt.
           apply Hshared. exists px, py. auto.
        -- exists r, px, py. auto.
Qed.
End OverlapFacts.

Lemma overlaps_zero_iff_shared_pixel_witness :
  BuildScalesTransform.overlaps (F := R) [mkCvRect 5 5 1 1; mkCvRect 0 0 2 2]
                                (mkCvRect 1 1 3 3) 0%R = true.
Proof.
  apply (overlaps_zero_iff_shared_pixel [mkCvRect 5 5 1 1; mkCvRect 0 0 2 2]
                                        (mkCvRect 1 1 3 3)).
  - unfold plainRect. simpl. lia.
  - simpl. lia.
  - repeat constructor; simpl; lia.
  - exists (mkCvRect 0 0 2 2), 1%Z, 1%Z.
    split; [right; left; reflexivity|]. unfold containsPixel. simpl. lia.
Defined.

(** ** Applying a transform twice, and records without points or rects *)

Section RepetitionFacts.
Context {F : Type} {num : Scalar F} {eigen : EigenLib F} {opencv : OpenCVLib F}.

(** X16.  Alignment without warp is idempotent: on every record, aligning
    the aligned record again returns it unchanged, with the same
    warnings (the statistics are computed from the points and rects, which
    alignment without warp leaves alone, and written over themselves). *)
Theorem alignment_without_warp_idempotent (meanShape : list (F * F)) (src : Template F) :
  exists once warnings,
    ProcrustesTransform.project false meanShape src = Done once warnings
    /\ ProcrustesTransform.project false meanShape once = Done once warnings.
Proof.
  destruct (usable src) eqn:Hu.
  - rewrite (project_usable false meanShape src Hu). rewrite app_nil_r.
    eexists _, _. split; [reflexivity|].
    set (once := mkTemplate _ (m src)).
    assert (Hu' : usable once = true) by exact Hu.
    rewrite (project_usable false meanShape once Hu'). rewrite app_nil_r.
    unfold once. simpl. f_equal. f_equal. f_equal.
    apply insert_insert_eq.
  - rewrite (project_unusable false meanShape src Hu).
    eexists _, _. split; [reflexivity|].
    apply (project_unusable false meanShape src Hu).
Qed.

(** X17.  Triangulation without warp is idempotent on a record whose
    points all pass the bounds test: the stored list does not enter the
    triangulation, so a second run stores the same list again. *)
Theorem triangulation_without_warp_idempotent
        (scaleFactor : F) (src dst dst' : Template F) :
  usable src = true ->
  Forall (fun p => DelaunayTransform.outOfBounds (mat_cols (m src)) (mat_rows (m src)) p
                   = false) (fullPoints src) ->
  exists once,
    DelaunayTransform.project scaleFactor false src dst = Done once []
    /\ DelaunayTransform.project scaleFactor false once dst' = Done once [].
Proof.
  intros Hu Hall.
  destruct (project_accepted scaleFactor false src dst Hu Hall) as (Hoff & _ & _).
  rewrite (Hoff eq_refl). eexists. split; [reflexivity|].
  set (once := DelaunayTransform.storeTriangles _ src).
  assert (Hu' : usable once = true) by exact Hu.
  assert (Hall' : Forall (fun p => DelaunayTransform.outOfBounds
                                     (mat_cols (m once)) (mat_rows (m once)) p = false)
                         (fullPoints once)) by exact Hall.
  destruct (project_accepted scaleFactor false once dst' Hu' Hall') as (Hoff' & _ & _).
  rewrite (Hoff' eq_refl).
  unfold once, DelaunayTransform.storeTriangles, setList. simpl.
  f_equal. f_equal. f_equal. apply insert_insert_eq.
Qed.

(** X18.  A record without points or without rects goes through alignment
    and then triangulation unchanged, each of the two leaving one warning;
    neither [warp] flag, the mean shape, the scale factor nor [dst] has
    any part in it. *)
Theorem unusable_record_passes_through
        (meanShape : list (F * F)) (scaleFactor : F) (warp warp' : bool)
        (src dst : Template F) :
  file_points (file src) = [] \/ file_rects (file src) = [] ->
  ProcrustesTransform.project warp meanShape src
  = Done src ["Procrustes alignment failed because points or rects are empty."]
  /\ DelaunayTransform.project scaleFactor warp' src dst
     = Done src ["Delauney triangulation failed because points or rects are empty."].
Proof.
  intros Hempty.
  assert (Hu : usable src = false).
  { unfold usable. apply negb_false_iff, orb_true_iff.
    destruct Hempty as [-> | ->]; [left | right]; reflexivity. }
  split; [apply project_unusable | apply project_unusable_source]; exact Hu.
Qed.
End RepetitionFacts.

Lemma triangulation_without_warp_idempotent_witness :
  exists once,
    DelaunayTransform.project (opencv := sampleOpenCV) (fl 1) false twoLandmarks noRects
    = Done once []
    /\ DelaunayTransform.project (opencv := sampleOpenCV) (fl 1) false once oneLandmark
       = Done once [].
Proof.
  apply (triangulation_without_warp_idempotent
           (opencv := sampleOpenCV) (fl 1) twoLandmarks noRects oneLandmark).
  - vm_compute. reflexivity.
  - vm_compute. repeat constructor.
Defined.

Lemma unusable_record_passes_through_witness :
  ProcrustesTransform.project (eigen := identityRotation) true [] noRects
  = Done noRects ["Procrustes alignment failed because points or rects are empty."]
  /\ DelaunayTransform.project (opencv := sampleOpenCV) (fl 1) true noRects oneLandmark
     = Done noRects ["Delauney triangulation failed because points or rects are empty."].
Proof.
  apply (unusable_record_passes_through
           (eigen := identityRotation) (opencv := sampleOpenCV)
           [] (fl 1) true true noRects oneLandmark).
  right. reflexivity.
Defined.

(** ** Training on equal shapes (exact arithmetic) *)

Section EqualShapes.
Local Open Scope R_scope.


End EqualShapes.


